(** * find_and_extend: the tabular filter and the extension window

    A shallow embedding of [tools/find_and_extend/find_and_extend.py]:
    the generator [extract_candidates] (lines 179-198) and the module-level
    loop that consumes it (lines 201-213).

    Python values are modelled as follows.
    - [str] is [string]; the characters of a BLAST tabular file are ASCII.
    - [int] is [Z] (unbounded).
    - [float] is [spec_float], the IEEE 754 values of the standard library,
      compared with [SFltb] and [SFleb]; Python floats are its binary64
      members.
    - The builtins [float()], [int()] and [os.system()] belong to the
      interpreter and the operating system: they are fields of a [Runtime]
      the program is parameterised by.  [float()] and [int()] return [None]
      where Python raises [ValueError].
    - Exceptions are values of [exn]; every one of them ends the run.
      [sys.exit(msg)] raises [SystemExit]; [assert] is taken as enabled
      (the interpreter runs without [-O]).

    The loop starts from the lines of the tabular file and the settings
    left by lines 102-143.  The checks of the command line (lines 38-42
    and 87-150) are embedded from what [parse_args] returns.  The
    [--version] exit of lines 33-36, [optparse] itself, the [blastn] call
    of lines 174-175 and the temporary directory are outside the
    embedding. *)

From Stdlib Require Import ZArith List String Ascii Bool Lia.
From Stdlib Require Import DecimalString Floats.SpecFloat.
Import ListNotations.
Local Open Scope string_scope.
Local Open Scope Z_scope.

Set Implicit Arguments.

(** ** Strings *)

Module PyStr.

Definition tab : ascii := "009"%char.
Definition lf : ascii := "010"%char.
Definition dquote : ascii := "034"%char.

Definition chr (c : ascii) : string := String c EmptyString.

(** [s.startswith(p)] *)
Definition startswith (p s : string) : bool := String.prefix p s.

(** [s.rstrip(c)] for a one-character [c]: every trailing [c] goes. *)
Fixpoint rstrip (c : ascii) (s : string) : string :=
  match s with
  | EmptyString => EmptyString
  | String a s' =>
      match rstrip c s' with
      | EmptyString => if Ascii.eqb a c then EmptyString else chr a
      | r => String a r
      end
  end.

(** [s.split(sep)] for a one-character [sep]: one field more than there
    are separators, empty fields kept. *)
Fixpoint split (sep : ascii) (s : string) : list string :=
  match s with
  | EmptyString => [EmptyString]
  | String a s' =>
      if Ascii.eqb a sep then EmptyString :: split sep s'
      else match split sep s' with
           | [] => [chr a]
           | p :: ps => String a p :: ps
           end
  end.

Definition is_space (a : ascii) : bool :=
  let n := nat_of_ascii a in
  (Nat.eqb n 32 || (Nat.leb 9 n && Nat.leb n 13))%bool.

(** [s.split()]: runs of white space separate, no empty field. *)
Fixpoint split_ws_aux (cur : string) (s : string) : list string :=
  match s with
  | EmptyString => match cur with EmptyString => [] | _ => [cur] end
  | String a s' =>
      if is_space a then
        match cur with
        | EmptyString => split_ws_aux EmptyString s'
        | _ => cur :: split_ws_aux EmptyString s'
        end
      else split_ws_aux (cur ++ chr a) s'
  end.

Definition split_ws (s : string) : list string := split_ws_aux EmptyString s.

(** ["%i" % z] *)
Definition fmt_i (z : Z) : string := NilZero.string_of_int (Z.to_int z).

(** [sep.join(l)] *)
Fixpoint join (sep : string) (l : list string) : string :=
  match l with
  | [] => EmptyString
  | [x] => x
  | x :: l' => x ++ sep ++ join sep l'
  end.

End PyStr.

(** ** Floats *)

Module PyFloat.

Definition prec : Z := 53.
Definition emax : Z := 1024.

Definition ltb (x y : spec_float) : bool := SFltb x y.
Definition leb (x y : spec_float) : bool := SFleb x y.

(** The float an [int] is converted to when it meets a float in a
    comparison ([0 <= min_identity <= 100]). *)
Definition of_int (z : Z) : spec_float := binary_normalize prec emax z 0 false.

Definition is_nan (x : spec_float) : bool :=
  match x with S754_nan => true | _ => false end.

(** The binary64 nearest to [n / d] for [n >= 0], ties to even, with the
    sign [neg]. *)
Definition of_ratio (neg : bool) (n : Z) (d : positive) : spec_float :=
  match n with
  | Zpos p => SFdiv prec emax (S754_finite neg p 0) (S754_finite false d 0)
  | _ => S754_zero neg
  end.

End PyFloat.

(** ** The interpreter and the operating system *)

Record Runtime : Type := {
  World : Type;
  (** [float(s)]; [None] is [ValueError]. *)
  py_float : string -> option spec_float;
  (** [int(s)]; [None] is [ValueError]. *)
  py_int : string -> option Z;
  (** [os.system(cmd)]: the return code and the world afterwards. *)
  os_system : string -> World -> Z * World
}.

(** The module-level names the core reads after the command line has been
    parsed (lines 102-143) and [options.database]. *)
Record Settings : Type := {
  database : string;
  min_identity : spec_float;
  min_coverage : spec_float;
  up_extend : Z;
  down_extend : Z
}.

(** Lines 107 and 115: [if not (0 <= x <= 100): sys.exit(...)]. *)
Definition percent_ok (x : spec_float) : bool :=
  PyFloat.leb (PyFloat.of_int 0) x && PyFloat.leb x (PyFloat.of_int 100).

(** Lines 132 and 141: [if x < 0: sys.exit(...)]. *)
Definition extend_ok (x : Z) : bool := negb (x <? 0).

(** The settings that survive the checks of lines 102-143. *)
Definition settings_ok (cfg : Settings) : bool :=
  percent_ok (min_identity cfg) && percent_ok (min_coverage cfg)
  && extend_ok (up_extend cfg) && extend_ok (down_extend cfg).

Inductive exn : Type :=
| SystemExit (msg : string)
| ValueError (arg : string)
| AssertionError (msg : string).

(** Lines 161-168. *)
Definition cols : string := "qseqid sseqid pident qcovhsp sstart send slen".
Definition c_query : nat := 0.
Definition c_match : nat := 1.
Definition c_identity : nat := 2.
Definition c_coverage : nat := 3.
Definition c_sstart : nat := 4.
Definition c_send : nat := 5.
Definition c_slen : nat := 6.

(** What the generator yields: [(accession, start, end, length)]. *)
Definition candidate : Type := (string * Z * Z * Z)%type.

(** What one turn of the [for line in h] loop does. *)
Inductive turn : Type :=
| Continue
| YieldV (c : candidate)
| Exit (e : exn).

(** A generator over a finite file: the values it yields, in order, ended
    by exhaustion or by an exception. *)
Inductive gen : Type :=
| Stop
| Yield (c : candidate) (rest : gen)
| Throw (e : exn).

(** The state the run acts on. [cmds] records the command lines handed to
    [os.system], oldest first. *)
Record state (W : Type) : Type := {
  count : Z;
  stdout : list string;
  stderr : list string;
  cmds : list string;
  world : W
}.

Inductive result (A : Type) : Type :=
| Ok (a : A)
| Raise (e : exn).
Arguments Raise {A} e.

(** ** State and exceptions *)

Section Monad.

Context {W : Type}.

Definition M (A : Type) : Type := state W -> result A * state W.

Definition ret {A} (a : A) : M A := fun s => (Ok a, s).

Definition bind {A B} (m : M A) (k : A -> M B) : M B :=
  fun s => match m s with
           | (Ok a, s') => k a s'
           | (Raise e, s') => (Raise e, s')
           end.

Definition raise {A} (e : exn) : M A := fun s => (Raise e, s).

Definition set_count (z : Z) : M unit := fun s =>
  (Ok tt, {| count := z; stdout := stdout s; stderr := stderr s;
             cmds := cmds s; world := world s |}).

Definition get_count : M Z := fun s => (Ok (count s), s).

(** [print(...)]: one write to standard output. *)
Definition print (text : string) : M unit := fun s =>
  (Ok tt, {| count := count s; stdout := stdout s ++ [text];
             stderr := stderr s; cmds := cmds s; world := world s |}).

(** [sys.stderr.write(text)] *)
Definition stderr_write (text : string) : M unit := fun s =>
  (Ok tt, {| count := count s; stdout := stdout s;
             stderr := stderr s ++ [text]; cmds := cmds s;
             world := world s |}).

(** [assert cond, msg] *)
Definition py_assert (cond : bool) (msg : string) : M unit :=
  if cond then ret tt else raise (AssertionError msg).

End Monad.

Arguments M : clear implicits.

Notation "x <- c1 ;; c2" := (bind c1 (fun x => c2))
  (at level 61, c1 at next level, right associativity).
Notation "c1 ;;; c2" := (bind c1 (fun _ => c2))
  (at level 61, right associativity).

Section Run.

Context (rt : Runtime).

(** [run(cmd)], lines 26-30. *)
Definition run (cmd : string) : M (World rt) unit := fun s =>
  let '(return_code, w) := os_system rt cmd (world s) in
  let s' := {| count := count s; stdout := stdout s; stderr := stderr s;
               cmds := cmds s ++ [cmd]; world := w |} in
  if return_code =? 0 then (Ok tt, s')
  else (Raise (SystemExit ("Error " ++ PyStr.fmt_i return_code
                             ++ " from: " ++ cmd)), s').

End Run.

Section Program.

Context (rt : Runtime) (cfg : Settings).

(** *** [extract_candidates], lines 179-198 *)

Definition col_count : nat := List.length (PyStr.split_ws cols).

Definition malformed_msg (expected actual : nat) (line : string) : string :=
  "Old version of NCBI BLAST? Expected " ++ PyStr.fmt_i (Z.of_nat expected)
    ++ " columns, got " ++ PyStr.fmt_i (Z.of_nat actual) ++ ":"
    ++ PyStr.chr PyStr.lf ++ line ++ PyStr.chr PyStr.lf
    ++ "Note the qcovhsp field was only added in version 2.2.28"
    ++ PyStr.chr PyStr.lf.

Definition field (parts : list string) (i : nat) : string :=
  nth i parts EmptyString.

(** Line 198, the arguments of [yield] evaluated left to right. *)
Definition yield_fields (parts : list string) : turn :=
  match py_int rt (field parts c_sstart) with
  | None => Exit (ValueError (field parts c_sstart))
  | Some start =>
      match py_int rt (field parts c_send) with
      | None => Exit (ValueError (field parts c_send))
      | Some end_ =>
          match py_int rt (field parts c_slen) with
          | None => Exit (ValueError (field parts c_slen))
          | Some length => YieldV (field parts c_match, start, end_, length)
          end
      end
  end.

(** Lines 187-198: the body of [for line in h]. The [or] of line 196
    does not convert the coverage when the identity is already too low. *)
Definition for_line (line : string) : turn :=
  if PyStr.startswith "#" line then Continue
  else
    let parts := PyStr.split PyStr.tab (PyStr.rstrip PyStr.lf line) in
    if negb (Nat.eqb (List.length parts) col_count) then
      Exit (SystemExit (malformed_msg col_count (List.length parts) line))
    else
      match py_float rt (field parts c_identity) with
      | None => Exit (ValueError (field parts c_identity))
      | Some identity =>
          if PyFloat.ltb identity (min_identity cfg) then Continue
          else
            match py_float rt (field parts c_coverage) with
            | None => Exit (ValueError (field parts c_coverage))
            | Some coverage =>
                if PyFloat.ltb coverage (min_coverage cfg) then Continue
                else yield_fields parts
            end
      end.

(** [h] is the open file, as the lines its iteration gives. *)
Fixpoint extract_candidates (h : list string) : gen :=
  match h with
  | [] => Stop
  | line :: h' =>
      match for_line line with
      | Continue => extract_candidates h'
      | YieldV c => Yield c (extract_candidates h')
      | Exit e => Throw e
      end
  end.

End Program.

Section Main.

Context (rt : Runtime) (cfg : Settings).

(** *** The loop of lines 201-213 *)

(** Line 207. *)
Definition req_start (start : Z) : Z := Z.max 1 (start - up_extend cfg).

(** Line 208. *)
Definition req_end (end_ length : Z) : Z :=
  Z.min (end_ + down_extend cfg) length.

(** Line 205: [1 <= start < end <= length]. *)
Definition coords_ok (start end_ length : Z) : bool :=
  (1 <=? start) && (start <? end_) && (end_ <=? length).

(** The command line of lines 210-211. *)
Definition blastdbcmd (idn : string) (lo hi : Z) : string :=
  "blastdbcmd -db " ++ database cfg
    ++ " -entry " ++ PyStr.chr PyStr.dquote ++ idn ++ PyStr.chr PyStr.dquote
    ++ " -range " ++ PyStr.chr PyStr.dquote
    ++ PyStr.fmt_i lo ++ "-" ++ PyStr.fmt_i hi ++ PyStr.chr PyStr.dquote.

(** What [print(idn, start, end, length)] writes. *)
Definition printed (idn : string) (start end_ length : Z) : string :=
  PyStr.join " " [idn; PyStr.fmt_i start; PyStr.fmt_i end_; PyStr.fmt_i length]
    ++ PyStr.chr PyStr.lf.

(** Lines 203-211: the body of the loop over the candidates. *)
Definition loop_body (c : candidate) : M (World rt) unit :=
  let '(idn, start, end_, length) := c in
  n <- get_count ;;
  set_count (n + 1) ;;;
  print (printed idn start end_ length) ;;;
  py_assert (coords_ok start end_ length) "Reverse strand?" ;;;
  run rt (blastdbcmd idn (req_start start) (req_end end_ length)).

(** The [for] statement of line 202 driving the generator: the
    generator runs up to its next [yield], then the body runs. *)
Fixpoint for_each (g : gen) : M (World rt) unit :=
  match g with
  | Stop => ret tt
  | Throw e => raise e
  | Yield c rest => loop_body c ;;; for_each rest
  end.

(** Lines 201-211: the counter is reset, then the loop runs. *)
Definition candidates_loop (h : list string) : M (World rt) unit :=
  set_count 0 ;;;
  for_each (extract_candidates rt cfg h).

(** Lines 201-213 over the lines of the tabular file. *)
Definition main (h : list string) : M (World rt) unit :=
  candidates_loop h ;;;
  n <- get_count ;;
  stderr_write (PyStr.fmt_i n ++ " candidates" ++ PyStr.chr PyStr.lf).

End Main.

(** ** Readings of a run

    Names for what the properties below speak of. *)

Section Views.

Context (rt : Runtime) (cfg : Settings).

Local Abbreviation St := (state (World rt)).

(** The state once line 204 has printed the candidate. *)
Definition counted (c : candidate) (s : St) : St :=
  let '(idn, start, end_, length) := c in
  {| count := count s + 1;
     stdout := stdout s ++ [printed idn start end_ length];
     stderr := stderr s; cmds := cmds s; world := world s |}.

Definition coords_ok_of (c : candidate) : bool :=
  let '(_, start, end_, length) := c in coords_ok start end_ length.

(** The line is a record that the generator yields. *)
Definition passed (line : string) : bool :=
  match for_line rt cfg line with
  | YieldV _ => true
  | _ => false
  end.

(** The window of a candidate: subject, first and last base asked for. *)
Definition window (c : candidate) : string * Z * Z :=
  let '(idn, start, end_, length) := c in
  (idn, req_start cfg start, req_end cfg end_ length).

Definition command_of (w : string * Z * Z) : string :=
  let '(idn, lo, hi) := w in blastdbcmd cfg idn lo hi.

(** The windows of the records of a report that pass the filter, in the
    order of the report. *)
Definition windows (h : list string) : list (string * Z * Z) :=
  flat_map (fun line => match for_line rt cfg line with
                        | YieldV c => [window c]
                        | _ => []
                        end) h.

(** The state after line 201. *)
Definition reset (s : St) : St :=
  {| count := 0; stdout := stdout s; stderr := stderr s;
     cmds := cmds s; world := world s |}.

End Views.

(** ** The command line, lines 38-42 and 87-150

    [optparse] is a library: the embedding starts from what
    [parser.parse_args()] returns, the positional arguments and the
    [options] object.  [os.path.isfile] and the formats [%r] and [%0.2f]
    are taken from a [Host]. *)

Record Host : Type := {
  (** [os.path.isfile(path)] *)
  isfile : string -> bool;
  (** ["%r" % s] for a string *)
  repr_str : string -> string;
  (** ["%r" % z] for an integer *)
  repr_int : Z -> string;
  (** ["%0.2f" % x] *)
  fmt_2f : spec_float -> string
}.

(** The [options] object.  An option without a value is [None]; the
    numeric options have string defaults, so they always hold a string,
    except [threads] whose default is the integer of lines 38-42. *)
Record Options : Type := {
  opt_query : option string;
  opt_database : option string;
  opt_output : option string;
  opt_output_blast : option string;
  opt_min_identity : string;
  opt_min_coverage : string;
  opt_max_target_seqs : string;
  opt_up : string;
  opt_down : string;
  opt_threads : option string
}.

(** The names bound once line 150 is passed. *)
Record Checked : Type := {
  query_file : string;
  out_file : string;
  max_target_seqs : Z;
  threads : Z;
  settings : Settings
}.

(** The handlers of lines 104-106, 112-114 and 120-122 format a name that
    the failed assignment has left unbound: they end in [NameError]. *)
Inductive startup_exn : Type :=
| Uncaught (e : exn)
| NameError (name : string).

Inductive startup (A : Type) : Type :=
| Started (a : A)
| Failed (e : startup_exn).
Arguments Failed {A} e.

Section Startup.

Context (rt : Runtime) (host : Host).

(** The truth value of an option: [None] and the empty string are false. *)
Definition given (o : option string) : bool :=
  match o with
  | Some (String _ _) => true
  | _ => false
  end.

Definition text_of (o : option string) : string :=
  match o with
  | Some v => v
  | None => EmptyString
  end.

Definition sys_exit {A : Type} (msg : string) : startup A :=
  Failed (Uncaught (SystemExit msg)).

(** Lines 38-42; [slots] is [os.environ.get("GALAXY_SLOTS")]. *)
Definition default_threads (slots : option string) : startup Z :=
  let text := match slots with Some v => v | None => "1" end in
  let threads := match py_int rt text with Some z => z | None => 1 end in
  if 1 <=? threads then Started threads
  else Failed (Uncaught (AssertionError (PyStr.fmt_i threads))).

(** Lines 127-143, for [--up] and [--down]. *)
Definition check_extend (which : string) (text : string) : startup Z :=
  match py_int rt text with
  | None =>
      sys_exit ("Expected positive or zero integer for number of bases to extend "
                  ++ which ++ ", not " ++ repr_str host text)
  | Some z =>
      if z <? 0 then
        sys_exit ("Expected positive or zero integer for number of bases to extend "
                    ++ which ++ ", not " ++ repr_int host z)
      else Started z
  end.

(** Lines 145-150; [threads0] is the default of lines 38-42. *)
Definition check_threads (o : Options) (threads0 : Z) : startup Z :=
  match opt_threads o with
  | None =>
      if threads0 <? 1 then
        sys_exit ("Expected positive integer for number of threads, not "
                    ++ repr_int host threads0)
      else Started threads0
  | Some text =>
      match py_int rt text with
      | None =>
          sys_exit ("Expected positive integer for number of threads, not "
                      ++ repr_str host text)
      | Some z =>
          if z <? 1 then
            sys_exit ("Expected positive integer for number of threads, not "
                        ++ repr_int host z)
          else Started z
      end
  end.

(** Lines 87-150. *)
Definition check_options (args : list string) (o : Options) (threads0 : Z)
  : startup Checked :=
  match args with
  | _ :: _ => sys_exit "No positional arguments expected."
  | [] =>
  if negb (given (opt_query o)) then
    sys_exit "Missing required argument for input FASTA file"
  else if negb (given (opt_database o)) then
    sys_exit "Missing required argument for BLAST database"
  else if negb (isfile host (text_of (opt_query o))) then
    sys_exit ("Missing input query FASTA file: "
                ++ repr_str host (text_of (opt_query o)))
  else if negb (given (opt_output o)) then
    sys_exit "Output filename required, e.g. -o matches.fasta"
  else
  match py_float rt (opt_min_identity o) with
  | None => Failed (NameError "min_identity")
  | Some idy =>
  if negb (percent_ok idy) then
    sys_exit ("Expected minimum identity between 0 and 100, not "
                ++ fmt_2f host idy)
  else
  match py_float rt (opt_min_coverage o) with
  | None => Failed (NameError "min_coverage")
  | Some cov =>
  if negb (percent_ok cov) then
    sys_exit ("Expected minimum coverage between 0 and 100, not "
                ++ fmt_2f host cov)
  else
  match py_int rt (opt_max_target_seqs o) with
  | None => Failed (NameError "max_target_seqs")
  | Some targets =>
  if targets <? 0 then
    sys_exit ("Expected positive integer for maximum matches (max_target_seqs), not "
                ++ repr_int host targets)
  else
  match check_extend "upstream" (opt_up o) with
  | Failed e => Failed e
  | Started up =>
  match check_extend "downstream" (opt_down o) with
  | Failed e => Failed e
  | Started down =>
  match check_threads o threads0 with
  | Failed e => Failed e
  | Started n =>
      Started {| query_file := text_of (opt_query o);
                 out_file := text_of (opt_output o);
                 max_target_seqs := targets;
                 threads := n;
                 settings := {| database := text_of (opt_database o);
                                min_identity := idy;
                                min_coverage := cov;
                                up_extend := up;
                                down_extend := down |} |}
  end end end end end end
  end.

(** Lines 38-150, given what [parse_args] returned. *)
Definition start (slots : option string) (args : list string) (o : Options)
  : startup Checked :=
  match default_threads slots with
  | Failed e => Failed e
  | Started threads0 => check_options args o threads0
  end.

End Startup.

(** ** More readings *)

(** How many times [c] occurs in [s]. *)
Fixpoint occurrences (c : ascii) (s : string) : nat :=
  match s with
  | EmptyString => O
  | String a s' => ((if Ascii.eqb a c then 1 else 0) + occurrences c s')%nat
  end.

Section Readings.

Context (rt : Runtime) (cfg : Settings).

(** The fields line 189 cuts a line into. *)
Definition parts_of (line : string) : list string :=
  PyStr.split PyStr.tab (PyStr.rstrip PyStr.lf line).

(** The records of a report that the generator would yield, in order. *)
Definition candidates_of (h : list string) : list candidate :=
  flat_map (fun line => match for_line rt cfg line with
                        | YieldV c => [c]
                        | _ => []
                        end) h.

(** What line 204 prints for a candidate. *)
Definition printed_of (c : candidate) : string :=
  let '(idn, start, end_, length) := c in printed idn start end_ length.

(** A candidate comes from a line of the report and its window is inside
    its subject and around its match. *)
Definition sound_window (h : list string) (c : candidate) : Prop :=
  let '(idn, start, end_, length) := c in
  (exists line, In line h /\ for_line rt cfg line = YieldV c)
  /\ 1 <= req_start cfg start <= start
  /\ start < end_
  /\ end_ <= req_end cfg end_ length <= length.

End Readings.

(** Lines 87-100 find nothing to complain about. *)
Definition files_ok (host : Host) (args : list string) (o : Options) : bool :=
  match args with
  | [] => given (opt_query o) && given (opt_database o)
          && isfile host (text_of (opt_query o)) && given (opt_output o)
  | _ :: _ => false
  end.

Section StartReadings.

Context (rt : Runtime) (host : Host).

(** What a start that succeeds has established. *)
Definition well_started (slots : option string) (args : list string)
    (o : Options) (v : Checked) : Prop :=
  args = []
  /\ query_file v = text_of (opt_query o)
  /\ query_file v <> EmptyString
  /\ isfile host (query_file v) = true
  /\ out_file v = text_of (opt_output o)
  /\ out_file v <> EmptyString
  /\ database (settings v) = text_of (opt_database o)
  /\ database (settings v) <> EmptyString
  /\ py_float rt (opt_min_identity o) = Some (min_identity (settings v))
  /\ py_float rt (opt_min_coverage o) = Some (min_coverage (settings v))
  /\ py_int rt (opt_max_target_seqs o) = Some (max_target_seqs v)
  /\ py_int rt (opt_up o) = Some (up_extend (settings v))
  /\ py_int rt (opt_down o) = Some (down_extend (settings v))
  /\ settings_ok (settings v) = true
  /\ 0 <= max_target_seqs v
  /\ 1 <= threads v
  /\ match opt_threads o with
     | Some text => py_int rt text = Some (threads v)
     | None => default_threads rt slots = Started (threads v)
     end.

End StartReadings.

(** ** A runtime for plain decimal fields

    BLAST writes its numbers as plain decimals ([96.0], [1000]).  This
    runtime reads that fragment of what [float()] and [int()] accept, an
    optional sign, digits and for floats an optional fraction, and answers
    [os.system] from a script of return codes (0 once the script is used
    up).  It serves to run the program on concrete reports. *)

Module Plain.

Definition digit (a : ascii) : option Z :=
  let n := nat_of_ascii a in
  if (Nat.leb 48 n && Nat.leb n 57)%bool then Some (Z.of_nat (n - 48)) else None.

(** The digits of [s] read after [acc], with how many there were. *)
Fixpoint digits (s : string) (acc : Z) (k : nat) : option (Z * nat) :=
  match s with
  | EmptyString => Some (acc, k)
  | String a s' =>
      match digit a with
      | Some d => digits s' (10 * acc + d) (S k)
      | None => None
      end
  end.

Definition unsigned (s : string) : bool * string :=
  match s with
  | String "-" s' => (true, s')
  | String "+" s' => (false, s')
  | _ => (false, s)
  end.

Definition int_of_string (s : string) : option Z :=
  let '(neg, body) := unsigned s in
  match digits body 0 0%nat with
  | Some (z, S _) => Some (if neg then - z else z)
  | _ => None
  end.

Definition float_of_string (s : string) : option spec_float :=
  let '(neg, body) := unsigned s in
  match PyStr.split "." body with
  | [i] =>
      match digits i 0 0%nat with
      | Some (z, S _) => Some (PyFloat.of_ratio neg z 1)
      | _ => None
      end
  | [i; f] =>
      match digits i 0 0%nat with
      | Some (z, ki) =>
          match digits f z 0%nat with
          | Some (z', kf) =>
              match (ki + kf)%nat with
              | O => None
              | _ => Some (PyFloat.of_ratio neg z' (Z.to_pos (10 ^ Z.of_nat kf)))
              end
          | None => None
          end
      | None => None
      end
  | _ => None
  end.

Definition scripted (cmd : string) (w : list Z) : Z * list Z :=
  match w with
  | [] => (0, [])
  | rc :: w' => (rc, w')
  end.

Definition runtime : Runtime :=
  {| World := list Z;
     py_float := float_of_string;
     py_int := int_of_string;
     os_system := scripted |}.

Definition initial (w : list Z) : state (list Z) :=
  {| count := 0; stdout := []; stderr := []; cmds := []; world := w |}.

(** A line of the tabular file from its fields. *)
Definition row (fields : list string) : string :=
  PyStr.join (PyStr.chr PyStr.tab) fields ++ PyStr.chr PyStr.lf.

Definition settings (identity coverage : Z) (up down : Z) : Settings :=
  {| database := "db";
     min_identity := PyFloat.of_int identity;
     min_coverage := PyFloat.of_int coverage;
     up_extend := up;
     down_extend := down |}.

(** A report of two records that pass under thresholds of 95. *)
Definition two_hits : list string :=
  [row ["Q1"; "S1"; "96.0"; "98.0"; "10"; "20"; "1000"];
   row ["Q3"; "S3"; "100.0"; "95.0"; "100"; "200"; "220"]].

(** Three records, the second below an identity threshold of 95. *)
Definition three_rows : list string :=
  [row ["Q1"; "S1"; "96.0"; "98.0"; "10"; "20"; "1000"];
   row ["Q2"; "S2"; "94.9"; "98.0"; "10"; "20"; "1000"];
   row ["Q3"; "S3"; "100.0"; "95.0"; "100"; "200"; "220"]].

(** The state after so many runs of [main] over [h], thresholds 95 and
    extensions 50, every command succeeding. *)
Fixpoint after (runs : nat) (h : list string) : state (list Z) :=
  match runs with
  | O => initial []
  | S k => snd (main runtime (settings 95 95 50 50) h (after k h))
  end.

End Plain.

(** ** A host for concrete command lines

    [%r] of an ASCII string and [%0.2f] as Python prints them, and a file
    system that holds the one file [query.fasta]. *)

Module PlainHost.

Definition hex_digit (n : nat) : ascii :=
  ascii_of_nat (if Nat.ltb n 10 then 48 + n else 87 + n).

Definition contains (c : ascii) (s : string) : bool :=
  existsb (Ascii.eqb c) (list_ascii_of_string s).

Definition escape (quote : ascii) (c : ascii) : string :=
  let n := nat_of_ascii c in
  if (Ascii.eqb c quote || Ascii.eqb c "\")%bool then String "\" (PyStr.chr c)
  else if Ascii.eqb c PyStr.tab then "\t"
  else if Ascii.eqb c PyStr.lf then "\n"
  else if Nat.eqb n 13 then "\r"
  else if (Nat.ltb n 32 || Nat.leb 127 n)%bool then
    String "\" (String "x" (String (hex_digit (n / 16))
                              (PyStr.chr (hex_digit (n mod 16)))))
  else PyStr.chr c.

Definition repr (s : string) : string :=
  let quote := if (contains "'" s && negb (contains PyStr.dquote s))%bool
               then PyStr.dquote else "'"%char in
  PyStr.chr quote
    ++ String.concat EmptyString (map (escape quote) (list_ascii_of_string s))
    ++ PyStr.chr quote.

Definition two_digits (z : Z) : string :=
  (if z <? 10 then "0" else EmptyString) ++ PyStr.fmt_i z.

(** The hundredths nearest to [m * 2 ^ e], ties to even. *)
Definition hundredths (m : positive) (e : Z) : Z :=
  if 0 <=? e then Zpos m * 100 * 2 ^ e
  else
    let d := 2 ^ (- e) in
    let q := (Zpos m * 100) / d in
    let r := (Zpos m * 100) mod d in
    if (d <? 2 * r) || ((d =? 2 * r) && Z.odd q) then q + 1 else q.

Definition format_2f (x : spec_float) : string :=
  let sign (s : bool) := if s then "-" else EmptyString in
  match x with
  | S754_nan => "nan"
  | S754_infinity s => sign s ++ "inf"
  | S754_zero s => sign s ++ "0.00"
  | S754_finite s m e =>
      let h := hundredths m e in
      sign s ++ PyStr.fmt_i (h / 100) ++ "." ++ two_digits (h mod 100)
  end.

Definition host : Host :=
  {| isfile := String.eqb "query.fasta";
     repr_str := repr;
     repr_int := PyStr.fmt_i;
     fmt_2f := format_2f |}.

(** [-q query.fasta -d db -o out.fasta] with the defaults of lines 66-80,
    and then the four numeric options as given. *)
Definition options (identity coverage up down : string) : Options :=
  {| opt_query := Some "query.fasta";
     opt_database := Some "db";
     opt_output := Some "out.fasta";
     opt_output_blast := None;
     opt_min_identity := identity;
     opt_min_coverage := coverage;
     opt_max_target_seqs := "1";
     opt_up := up;
     opt_down := down;
     opt_threads := None |}.

End PlainHost.

(** ** Runs of the definitions *)

Example split_three :
  PyStr.split "," "a,,b" = ["a"; EmptyString; "b"].
Proof. reflexivity. Qed.

Example rstrip_trailing :
  PyStr.rstrip "x" "abxcxx" = "abxc".
Proof. reflexivity. Qed.

Example fmt_i_neg : PyStr.fmt_i (-40) = "-40".
Proof. reflexivity. Qed.

Example float_of_string_96 :
  Plain.float_of_string "96.0" = Some (PyFloat.of_int 96).
Proof. reflexivity. Qed.

Example float_of_string_tenth :
  Plain.float_of_string "0.1" = Some (S754_finite false 7205759403792794 (-56)).
Proof. reflexivity. Qed.

Example float_of_string_bad : Plain.float_of_string "9x" = None.
Proof. reflexivity. Qed.

Example int_of_string_neg : Plain.int_of_string "-12" = Some (-12).
Proof. reflexivity. Qed.

Example col_count_7 : col_count = 7%nat.
Proof. reflexivity. Qed.

(** * Properties *)

Unset Implicit Arguments.

(** ** Comparisons of floats *)

Section FloatFacts.

Lemma SFcompare_antisym (x y : spec_float) :
  SFcompare y x = option_map CompOpp (SFcompare x y).
Proof.
  destruct x as [sx|sx| |sx mx ex], y as [sy|sy| |sy my ey]; simpl;
    try reflexivity;
    try (destruct sx; reflexivity);
    try (destruct sy; reflexivity);
    try (destruct sx, sy; reflexivity).
  destruct sx, sy; simpl; try reflexivity;
    rewrite (Z.compare_antisym ex ey);
    destruct (ex ?= ey); simpl; try reflexivity;
    rewrite (Pos.compare_cont_antisym mx my Eq); reflexivity.
Qed.

Lemma compare_defined (x y : spec_float) :
  PyFloat.is_nan x = false -> PyFloat.is_nan y = false ->
  exists c, SFcompare x y = Some c.
Proof.
  destruct x as [sx|sx| |sx mx ex], y as [sy|sy| |sy my ey]; simpl;
    intros Hx Hy; try discriminate; eexists; reflexivity.
Qed.

(** Away from NaN, [not (x < m)] is [m <= x]. *)
Lemma ltb_negb_leb (x m : spec_float) :
  PyFloat.is_nan x = false -> PyFloat.is_nan m = false ->
  PyFloat.ltb x m = negb (PyFloat.leb m x).
Proof.
  intros Hx Hm. unfold PyFloat.ltb, PyFloat.leb, SFltb, SFleb.
  rewrite (SFcompare_antisym x m).
  destruct (compare_defined x m Hx Hm) as [c Hc]. rewrite Hc.
  destruct c; reflexivity.
Qed.

Lemma leb_refl (x : spec_float) :
  PyFloat.is_nan x = false -> PyFloat.leb x x = true.
Proof.
  unfold PyFloat.leb, SFleb.
  destruct x as [sx|sx| |sx mx ex]; simpl; intros Hx; try discriminate;
    try reflexivity.
  - destruct sx; reflexivity.
  - destruct sx; rewrite Z.compare_refl, Pos.compare_cont_refl; reflexivity.
Qed.

Lemma percent_ok_not_nan (x : spec_float) :
  percent_ok x = true -> PyFloat.is_nan x = false.
Proof.
  destruct x; simpl; try reflexivity.
  unfold percent_ok. simpl. discriminate.
Qed.

(** A NaN is below nothing: line 196 lets it through. *)
Lemma nan_not_below (m : spec_float) : PyFloat.ltb S754_nan m = false.
Proof. reflexivity. Qed.

End FloatFacts.

(** ** The loop *)

Section LoopFacts.

Context (rt : Runtime) (cfg : Settings).

Local Abbreviation St := (state (World rt)).

Lemma loop_body_good (c : candidate) (s : St) :
  coords_ok_of c = true ->
  loop_body rt cfg c s = run rt (command_of cfg (window cfg c)) (counted rt c s).
Proof.
  destruct c as [[[idn start] end_] length]. simpl. intros H.
  unfold loop_body, bind, get_count, set_count, print, py_assert. simpl.
  rewrite H. reflexivity.
Qed.

Lemma loop_body_bad (c : candidate) (s : St) :
  coords_ok_of c = false ->
  loop_body rt cfg c s = (Raise (AssertionError "Reverse strand?"), counted rt c s).
Proof.
  destruct c as [[[idn start] end_] length]. simpl. intros H.
  unfold loop_body, bind, get_count, set_count, print, py_assert. simpl.
  rewrite H. reflexivity.
Qed.

Lemma run_cmds (cmd : string) (s : St) :
  cmds (snd (run rt cmd s)) = (cmds s ++ [cmd])%list
  /\ count (snd (run rt cmd s)) = count s
  /\ stderr (snd (run rt cmd s)) = stderr s.
Proof.
  unfold run. destruct (os_system rt cmd (world s)) as [rc w].
  destruct (rc =? 0); simpl; auto.
Qed.

Lemma for_each_continue (line : string) (h : list string) :
  for_line rt cfg line = Continue ->
  extract_candidates rt cfg (line :: h) = extract_candidates rt cfg h.
Proof. intros H. simpl. rewrite H. reflexivity. Qed.

Lemma extract_yield (line : string) (h : list string) (c : candidate) :
  for_line rt cfg line = YieldV c ->
  extract_candidates rt cfg (line :: h)
  = Yield c (extract_candidates rt cfg h).
Proof. intros H. simpl. rewrite H. reflexivity. Qed.

Lemma extract_exit (line : string) (h : list string) (e : exn) :
  for_line rt cfg line = Exit e ->
  extract_candidates rt cfg (line :: h) = Throw e.
Proof. intros H. simpl. rewrite H. reflexivity. Qed.

Lemma for_each_yield (c : candidate) (g : gen) (s : St) :
  for_each rt cfg (Yield c g) s
  = match loop_body rt cfg c s with
    | (Ok _, s') => for_each rt cfg g s'
    | (Raise e, s') => (Raise e, s')
    end.
Proof. reflexivity. Qed.

Lemma for_each_app (pre rest : list string) (s s1 : St) :
  for_each rt cfg (extract_candidates rt cfg pre) s = (Ok tt, s1) ->
  for_each rt cfg (extract_candidates rt cfg (pre ++ rest)) s
  = for_each rt cfg (extract_candidates rt cfg rest) s1.
Proof.
  revert s. induction pre as [|line pre IH]; intros s H; simpl in *.
  - inversion H. reflexivity.
  - destruct (for_line rt cfg line) as [|c|e]; simpl in *.
    + apply IH, H.
    + unfold bind in *.
      destruct (loop_body rt cfg c s) as [[[]|e] s']; [apply IH, H | discriminate].
    + discriminate.
Qed.

Lemma candidates_loop_app (pre rest : list string) (s s1 : St) :
  candidates_loop rt cfg pre s = (Ok tt, s1) ->
  candidates_loop rt cfg (pre ++ rest) s
  = for_each rt cfg (extract_candidates rt cfg rest) s1.
Proof.
  unfold candidates_loop, bind. simpl. apply for_each_app.
Qed.

Lemma main_of_loop_raise (h : list string) (s s1 : St) (e : exn) :
  candidates_loop rt cfg h s = (Raise e, s1) ->
  main rt cfg h s = (Raise e, s1).
Proof. intros H. unfold main, bind. rewrite H. reflexivity. Qed.

(** A line the generator passes over leaves no trace. *)
Lemma skip_line (pre rest : list string) (line : string) :
  for_line rt cfg line = Continue ->
  extract_candidates rt cfg (pre ++ line :: rest)
  = extract_candidates rt cfg (pre ++ rest).
Proof.
  intros H. induction pre as [|l pre IH]; simpl.
  - rewrite H. reflexivity.
  - rewrite IH. reflexivity.
Qed.

End LoopFacts.

(** ** The filter of line 196 *)

Lemma yield_fields_not_continue (rt : Runtime) (parts : list string) :
  yield_fields rt parts <> Continue.
Proof.
  unfold yield_fields.
  destruct (py_int rt (field parts c_sstart)); [|discriminate].
  destruct (py_int rt (field parts c_send)); [|discriminate].
  destruct (py_int rt (field parts c_slen)); discriminate.
Qed.

Lemma settings_ok_thresholds (cfg : Settings) :
  settings_ok cfg = true ->
  PyFloat.is_nan (min_identity cfg) = false
  /\ PyFloat.is_nan (min_coverage cfg) = false.
Proof.
  unfold settings_ok. intros H.
  apply andb_prop in H as [H _]. apply andb_prop in H as [H _].
  apply andb_prop in H as [Hi Hc].
  split; apply percent_ok_not_nan; assumption.
Qed.

(** What [for_line] does with a line of seven fields whose identity and
    coverage are numbers. *)
Lemma for_line_filter (rt : Runtime) (cfg : Settings) (line : string)
    (identity coverage : spec_float) :
  let parts := PyStr.split PyStr.tab (PyStr.rstrip PyStr.lf line) in
  PyStr.startswith "#" line = false ->
  List.length parts = col_count ->
  py_float rt (field parts c_identity) = Some identity ->
  py_float rt (field parts c_coverage) = Some coverage ->
  for_line rt cfg line
  = if (PyFloat.ltb identity (min_identity cfg)
        || PyFloat.ltb coverage (min_coverage cfg))%bool
    then Continue else yield_fields rt parts.
Proof.
  intros parts Hc Hn Hi Hv. unfold for_line. fold parts.
  rewrite Hc, Hn, Nat.eqb_refl, Hi. simpl.
  destruct (PyFloat.ltb identity (min_identity cfg)); simpl; [reflexivity|].
  rewrite Hv. reflexivity.
Qed.

(** C1. A record, that is a line of seven fields whose identity and
    coverage are numbers (as every percentage between 0 and 100 is), read
    under settings that passed the checks of the command line, passes the
    filter if and only if its identity is at least [min_identity] and its
    coverage at least [min_coverage].  A record that passes reaches the
    [yield] of line 198; one whose identity and coverage equal the
    thresholds passes. *)
Theorem filter_is_inclusive (rt : Runtime) (cfg : Settings) (line : string)
    (identity coverage : spec_float) :
  let parts := PyStr.split PyStr.tab (PyStr.rstrip PyStr.lf line) in
  settings_ok cfg = true ->
  PyStr.startswith "#" line = false ->
  List.length parts = col_count ->
  py_float rt (field parts c_identity) = Some identity ->
  py_float rt (field parts c_coverage) = Some coverage ->
  PyFloat.is_nan identity = false ->
  PyFloat.is_nan coverage = false ->
  (for_line rt cfg line <> Continue
   <-> PyFloat.leb (min_identity cfg) identity = true
       /\ PyFloat.leb (min_coverage cfg) coverage = true)
  /\ (PyFloat.leb (min_identity cfg) identity = true ->
      PyFloat.leb (min_coverage cfg) coverage = true ->
      for_line rt cfg line = yield_fields rt parts)
  /\ (identity = min_identity cfg -> coverage = min_coverage cfg ->
      for_line rt cfg line = yield_fields rt parts).
Proof.
  intros parts Hcfg Hc Hn Hi Hv Hin Hvn.
  destruct (settings_ok_thresholds cfg Hcfg) as [Hmi Hmc].
  pose proof (for_line_filter rt cfg line identity coverage Hc Hn Hi Hv) as E.
  fold parts in E.
  rewrite (ltb_negb_leb identity (min_identity cfg) Hin Hmi) in E.
  rewrite (ltb_negb_leb coverage (min_coverage cfg) Hvn Hmc) in E.
  assert (Hpass : PyFloat.leb (min_identity cfg) identity = true ->
                  PyFloat.leb (min_coverage cfg) coverage = true ->
                  for_line rt cfg line = yield_fields rt parts).
  { intros A B. rewrite E, A, B. reflexivity. }
  split; [|split].
  - split.
    + intros Hne.
      destruct (PyFloat.leb (min_identity cfg) identity);
        destruct (PyFloat.leb (min_coverage cfg) coverage);
        simpl in E; try (exfalso; apply Hne; exact E).
      split; reflexivity.
    + intros [A B]. rewrite (Hpass A B). apply yield_fields_not_continue.
  - exact Hpass.
  - intros -> ->. apply Hpass; apply leb_refl; assumption.
Qed.

(** A NaN identity is outside the data of a report; line 196 would let it
    through, since no comparison with a NaN holds. *)
Remark nan_record_not_dropped (rt : Runtime) (cfg : Settings) (line : string)
    (coverage : spec_float) :
  let parts := PyStr.split PyStr.tab (PyStr.rstrip PyStr.lf line) in
  PyStr.startswith "#" line = false ->
  List.length parts = col_count ->
  py_float rt (field parts c_identity) = Some S754_nan ->
  py_float rt (field parts c_coverage) = Some coverage ->
  PyFloat.ltb coverage (min_coverage cfg) = false ->
  for_line rt cfg line = yield_fields rt parts.
Proof.
  intros parts Hc Hn Hi Hv Hlt.
  rewrite (for_line_filter rt cfg line S754_nan coverage Hc Hn Hi Hv).
  rewrite nan_not_below, Hlt. reflexivity.
Qed.

(** A record at the thresholds, 95.0 and 95.0 against 95 and 95. *)
Lemma filter_is_inclusive_witness :
  for_line Plain.runtime (Plain.settings 95 95 50 50)
    (Plain.row ["Q1"; "S1"; "95.0"; "95.0"; "10"; "20"; "1000"])
  = YieldV ("S1", 10, 20, 1000).
Proof.
  pose proof (filter_is_inclusive Plain.runtime (Plain.settings 95 95 50 50)
    (Plain.row ["Q1"; "S1"; "95.0"; "95.0"; "10"; "20"; "1000"])
    (PyFloat.of_int 95) (PyFloat.of_int 95)
    eq_refl eq_refl eq_refl eq_refl eq_refl eq_refl eq_refl) as [_ [_ H]].
  exact (H eq_refl eq_refl).
Defined.

(** ** The window of lines 205-208 *)

Lemma coords_ok_spec (start end_ length : Z) :
  coords_ok start end_ length = true <-> 1 <= start < end_ /\ end_ <= length.
Proof.
  unfold coords_ok. rewrite !andb_true_iff, !Z.leb_le, Z.ltb_lt. lia.
Qed.

(** C2. When the lines before it have been processed, a record that passed
    the filter (the generator yields it) and whose coordinates are in order
    has [blastdbcmd] called, next, on the window from
    [max(1, start - up_extend)] to [min(end + down_extend, length)] of its
    subject.  The line [Q1 S1 96.0 98.0 10 20 1000] under thresholds 95 and
    95 and extensions 50 and 50 gives the window 1 to 70 of S1, and one
    candidate is counted. *)
Theorem window_of_passing_record :
  (forall (rt : Runtime) (cfg : Settings) (pre : list string) (line : string)
          (s s1 : state (World rt)) (idn : string) (start end_ length : Z),
      candidates_loop rt cfg pre s = (Ok tt, s1) ->
      for_line rt cfg line = YieldV (idn, start, end_, length) ->
      coords_ok start end_ length = true ->
      cmds (snd (candidates_loop rt cfg (pre ++ [line]) s))
      = (cmds s1 ++ [blastdbcmd cfg idn (Z.max 1 (start - up_extend cfg))
                       (Z.min (end_ + down_extend cfg) length)])%list)
  /\ main Plain.runtime (Plain.settings 95 95 50 50)
       [Plain.row ["Q1"; "S1"; "96.0"; "98.0"; "10"; "20"; "1000"]]
       (Plain.initial [])
     = (Ok tt,
        {| count := 1;
           stdout := ["S1 10 20 1000" ++ PyStr.chr PyStr.lf];
           stderr := ["1 candidates" ++ PyStr.chr PyStr.lf];
           cmds := [blastdbcmd (Plain.settings 95 95 50 50) "S1" 1 70];
           world := [] |}).
Proof.
  split; [|reflexivity].
  intros rt cfg pre line s s1 idn start end_ length Hpre Hline Hok.
  rewrite (candidates_loop_app rt cfg pre [line] s s1 Hpre).
  rewrite (extract_yield rt cfg line [] _ Hline), for_each_yield.
  rewrite (loop_body_good rt cfg (idn, start, end_, length) s1 Hok).
  pose proof (run_cmds rt (command_of cfg (window cfg (idn, start, end_, length)))
                (counted rt (idn, start, end_, length) s1)) as [Hc _].
  destruct (run rt (command_of cfg (window cfg (idn, start, end_, length)))
              (counted rt (idn, start, end_, length) s1)) as [[[]|e] s2];
    simpl in *; exact Hc.
Qed.

(** The record 100 to 200 of a subject of 220 bases, after a comment. *)
Lemma window_of_passing_record_witness :
  cmds (snd (candidates_loop Plain.runtime (Plain.settings 95 95 50 50)
               (["# BLASTN"]
                  ++ [Plain.row ["Q2"; "S2"; "97.5"; "100"; "100"; "200"; "220"]])
               (Plain.initial [])))
  = [blastdbcmd (Plain.settings 95 95 50 50) "S2" 50 220].
Proof.
  exact (proj1 window_of_passing_record Plain.runtime
           (Plain.settings 95 95 50 50) ["# BLASTN"]
           (Plain.row ["Q2"; "S2"; "97.5"; "100"; "100"; "200"; "220"])
           (Plain.initial []) (Plain.initial []) "S2" 100 200 220
           eq_refl eq_refl eq_refl).
Defined.

(** C3. For a record with [1 <= start < end <= length] and extensions that
    are not negative, the window satisfies
    [1 <= req_start <= req_end <= length]. *)
Theorem window_within_subject (cfg : Settings) (start end_ length : Z) :
  coords_ok start end_ length = true ->
  0 <= up_extend cfg ->
  0 <= down_extend cfg ->
  1 <= req_start cfg start
  /\ req_start cfg start <= req_end cfg end_ length
  /\ req_end cfg end_ length <= length.
Proof.
  intros H Hu Hd. apply coords_ok_spec in H.
  unfold req_start, req_end. lia.
Qed.

Lemma window_within_subject_witness :
  1 <= req_start (Plain.settings 95 95 50 50) 10
  /\ req_start (Plain.settings 95 95 50 50) 10
     <= req_end (Plain.settings 95 95 50 50) 20 1000
  /\ req_end (Plain.settings 95 95 50 50) 20 1000 <= 1000.
Proof.
  apply (window_within_subject (Plain.settings 95 95 50 50) 10 20 1000).
  - reflexivity.
  - simpl. lia.
  - simpl. lia.
Defined.

(** C9. For a record with [1 <= start < end <= length] and extensions that
    are not negative, the window contains the match:
    [req_start <= start] and [end <= req_end]. *)
Theorem window_contains_match (cfg : Settings) (start end_ length : Z) :
  coords_ok start end_ length = true ->
  0 <= up_extend cfg ->
  0 <= down_extend cfg ->
  req_start cfg start <= start /\ end_ <= req_end cfg end_ length.
Proof.
  intros H Hu Hd. apply coords_ok_spec in H.
  unfold req_start, req_end. lia.
Qed.

Lemma window_contains_match_witness :
  req_start (Plain.settings 95 95 50 50) 100 <= 100
  /\ 200 <= req_end (Plain.settings 95 95 50 50) 200 220.
Proof.
  apply (window_contains_match (Plain.settings 95 95 50 50) 100 200 220).
  - reflexivity.
  - simpl. lia.
  - simpl. lia.
Defined.

(** ** Lines that end the run, lines that are passed over *)

(** C4. A line that is not a comment and has not exactly seven fields makes
    the generator exit with the message that gives the expected count, the
    count found and the line.  When the lines before it have been processed
    the run ends there: whatever lines follow, the state is the one those
    earlier lines left, so the count has not moved, no command has been
    run and no count is written. *)
Theorem malformed_line_halts (rt : Runtime) (cfg : Settings)
    (pre rest : list string) (line : string) (s s1 : state (World rt)) :
  let parts := PyStr.split PyStr.tab (PyStr.rstrip PyStr.lf line) in
  PyStr.startswith "#" line = false ->
  List.length parts <> 7%nat ->
  candidates_loop rt cfg pre s = (Ok tt, s1) ->
  for_line rt cfg line
  = Exit (SystemExit (malformed_msg 7 (List.length parts) line))
  /\ main rt cfg (pre ++ line :: rest) s
     = (Raise (SystemExit (malformed_msg 7 (List.length parts) line)), s1).
Proof.
  intros parts Hc Hn Hpre.
  assert (Hline : for_line rt cfg line
                  = Exit (SystemExit (malformed_msg 7 (List.length parts) line))).
  { unfold for_line. fold parts. rewrite Hc.
    apply Nat.eqb_neq in Hn. change col_count with 7%nat. rewrite Hn.
    reflexivity. }
  split; [exact Hline|].
  apply main_of_loop_raise.
  rewrite (candidates_loop_app rt cfg pre (line :: rest) s s1 Hpre).
  rewrite (extract_exit rt cfg line rest _ Hline). reflexivity.
Qed.

(** A line of six fields after a good record; a good record follows. *)
Lemma malformed_line_halts_witness :
  main Plain.runtime (Plain.settings 95 95 50 50)
    ([Plain.row ["Q1"; "S1"; "96.0"; "98.0"; "10"; "20"; "1000"]]
       ++ Plain.row ["Q2"; "S2"; "96.0"; "10"; "20"; "1000"]
       :: [Plain.row ["Q3"; "S3"; "96.0"; "98.0"; "10"; "20"; "1000"]])
    (Plain.initial [])
  = (Raise (SystemExit
       (malformed_msg 7 6 (Plain.row ["Q2"; "S2"; "96.0"; "10"; "20"; "1000"]))),
     {| count := 1;
        stdout := ["S1 10 20 1000" ++ PyStr.chr PyStr.lf];
        stderr := [];
        cmds := [blastdbcmd (Plain.settings 95 95 50 50) "S1" 1 70];
        world := [] |}).
Proof.
  refine (proj2 (malformed_line_halts Plain.runtime (Plain.settings 95 95 50 50)
           [Plain.row ["Q1"; "S1"; "96.0"; "98.0"; "10"; "20"; "1000"]]
           [Plain.row ["Q3"; "S3"; "96.0"; "98.0"; "10"; "20"; "1000"]]
           (Plain.row ["Q2"; "S2"; "96.0"; "10"; "20"; "1000"])
           (Plain.initial []) _ eq_refl _ eq_refl)).
  vm_compute. discriminate.
Defined.

(** The run on a yielded record whose coordinates break the assertion. *)
Lemma reversed_record_core (rt : Runtime) (cfg : Settings)
    (pre rest : list string) (line : string) (s s1 : state (World rt))
    (idn : string) (start end_ length : Z) :
  candidates_loop rt cfg pre s = (Ok tt, s1) ->
  for_line rt cfg line = YieldV (idn, start, end_, length) ->
  coords_ok start end_ length = false ->
  main rt cfg (pre ++ line :: rest) s
  = (Raise (AssertionError "Reverse strand?"),
     {| count := count s1 + 1;
        stdout := stdout s1 ++ [printed idn start end_ length];
        stderr := stderr s1;
        cmds := cmds s1;
        world := world s1 |}).
Proof.
  intros Hpre Hline Hbad.
  apply main_of_loop_raise.
  rewrite (candidates_loop_app rt cfg pre (line :: rest) s s1 Hpre).
  rewrite (extract_yield rt cfg line rest _ Hline), for_each_yield.
  rewrite (loop_body_bad rt cfg (idn, start, end_, length) s1 Hbad).
  reflexivity.
Qed.

(** C5. A record that passed the filter (the generator yields it) and whose
    coordinates are not [1 <= start < end <= length] fails the assertion of
    line 205.  When the lines before it have been processed the run ends
    there with [AssertionError]: the record has been counted and printed,
    no window has been computed for it (no command is added), and the lines
    that follow are not read. *)
Theorem reversed_record_halts (rt : Runtime) (cfg : Settings)
    (pre rest : list string) (line : string) (s s1 : state (World rt))
    (idn : string) (start end_ length : Z) :
  candidates_loop rt cfg pre s = (Ok tt, s1) ->
  for_line rt cfg line = YieldV (idn, start, end_, length) ->
  coords_ok start end_ length = false ->
  main rt cfg (pre ++ line :: rest) s
  = (Raise (AssertionError "Reverse strand?"),
     {| count := count s1 + 1;
        stdout := stdout s1 ++ [printed idn start end_ length];
        stderr := stderr s1;
        cmds := cmds s1;
        world := world s1 |}).
Proof. apply reversed_record_core. Qed.

(** The record with start 20 and end 10. *)
Lemma reversed_record_halts_witness :
  main Plain.runtime (Plain.settings 95 95 50 50)
    ([] ++ Plain.row ["Q1"; "S1"; "96.0"; "98.0"; "20"; "10"; "1000"]
        :: [Plain.row ["Q3"; "S3"; "96.0"; "98.0"; "10"; "20"; "1000"]])
    (Plain.initial [])
  = (Raise (AssertionError "Reverse strand?"),
     {| count := 1;
        stdout := ["S1 20 10 1000" ++ PyStr.chr PyStr.lf];
        stderr := [];
        cmds := [];
        world := [] |}).
Proof.
  exact (reversed_record_halts Plain.runtime (Plain.settings 95 95 50 50)
           [] [Plain.row ["Q3"; "S3"; "96.0"; "98.0"; "10"; "20"; "1000"]]
           (Plain.row ["Q1"; "S1"; "96.0"; "98.0"; "20"; "10"; "1000"])
           (Plain.initial []) (Plain.initial []) "S1" 20 10 1000
           eq_refl eq_refl eq_refl).
Defined.

(** C6. A line that begins with [#] is passed over: the generator yields
    nothing and raises nothing for it, and the run over a report with the
    line is the run over the report without it, count included. *)
Theorem comment_line_skipped (rt : Runtime) (cfg : Settings) (line : string) :
  PyStr.startswith "#" line = true ->
  for_line rt cfg line = Continue
  /\ forall (pre rest : list string) (s : state (World rt)),
       main rt cfg (pre ++ line :: rest) s = main rt cfg (pre ++ rest) s.
Proof.
  intros Hc.
  assert (Hline : for_line rt cfg line = Continue).
  { unfold for_line. rewrite Hc. reflexivity. }
  split; [exact Hline|].
  intros pre rest s. unfold main, candidates_loop.
  rewrite (skip_line rt cfg pre rest line Hline). reflexivity.
Qed.

Lemma comment_line_skipped_witness :
  for_line Plain.runtime (Plain.settings 95 95 50 50) "# Fields: query id"
  = Continue.
Proof.
  exact (proj1 (comment_line_skipped Plain.runtime (Plain.settings 95 95 50 50)
                  "# Fields: query id" eq_refl)).
Defined.

(** ** Whole runs *)

Section RunFacts.

Context (rt : Runtime) (cfg : Settings).

Local Abbreviation St := (state (World rt)).

Lemma windows_length (h : list string) :
  List.length (windows rt cfg h) = List.length (filter (passed rt cfg) h).
Proof.
  induction h as [|line h IH]; simpl; [reflexivity|].
  unfold passed at 1. destruct (for_line rt cfg line); simpl; auto.
Qed.

Lemma run_result (cmd : string) (s : St) :
  (exists s2, run rt cmd s = (Ok tt, s2)
              /\ cmds s2 = (cmds s ++ [cmd])%list
              /\ count s2 = count s /\ stderr s2 = stderr s)
  \/ (exists msg s2, run rt cmd s = (Raise (SystemExit msg), s2)
                     /\ cmds s2 = (cmds s ++ [cmd])%list).
Proof.
  unfold run. destruct (os_system rt cmd (world s)) as [rc w].
  destruct (rc =? 0).
  - left. eexists. repeat split.
  - right. do 2 eexists. repeat split.
Qed.

Lemma counted_fields (c : candidate) (s : St) :
  cmds (counted rt c s) = cmds s
  /\ count (counted rt c s) = count s + 1
  /\ stderr (counted rt c s) = stderr s.
Proof. destruct c as [[[idn start] end_] length]. repeat split. Qed.

(** A loop that ends normally has run one command per yielded record,
    in order, and counted each. *)
Lemma loop_complete (h : list string) (s s' : St) :
  for_each rt cfg (extract_candidates rt cfg h) s = (Ok tt, s') ->
  cmds s' = (cmds s ++ map (command_of cfg) (windows rt cfg h))%list
  /\ count s' = count s + Z.of_nat (List.length (windows rt cfg h))
  /\ stderr s' = stderr s.
Proof.
  revert s. induction h as [|line h IH]; intros s H.
  - simpl in H. inversion H. subst. simpl.
    rewrite app_nil_r. repeat split. lia.
  - unfold windows. simpl. fold (windows rt cfg h).
    destruct (for_line rt cfg line) as [|c|e] eqn:Hline.
    + rewrite (for_each_continue rt cfg line h Hline) in H.
      apply IH in H. exact H.
    + rewrite (extract_yield rt cfg line h c Hline), for_each_yield in H.
      destruct (coords_ok_of c) eqn:Hok.
      * rewrite (loop_body_good rt cfg c s Hok) in H.
        destruct (counted_fields c s) as [Hc [Hn He]].
        destruct (run_result (command_of cfg (window cfg c)) (counted rt c s))
          as [[s2 [Hr [Hc2 [Hn2 He2]]]]|[msg [s2 [Hr _]]]];
          rewrite Hr in H; [|discriminate].
        apply IH in H. destruct H as [Hc' [Hn' He']].
        rewrite Hc', Hn', He', Hc2, Hn2, He2, Hc, Hn, He.
        simpl.
        rewrite <- app_assoc. simpl. repeat split. lia.
      * rewrite (loop_body_bad rt cfg c s Hok) in H. discriminate.
    + rewrite (extract_exit rt cfg line h e Hline) in H. discriminate.
Qed.

(** However a loop ends, the commands it has run are the first ones of
    the windows of the report. *)
Lemma loop_prefix (h : list string) (s s' : St) (r : result unit) :
  for_each rt cfg (extract_candidates rt cfg h) s = (r, s') ->
  exists k : nat,
    cmds s' = (cmds s ++ map (command_of cfg) (firstn k (windows rt cfg h)))%list.
Proof.
  revert s. induction h as [|line h IH]; intros s H.
  - simpl in H. inversion H. subst. exists 0%nat. simpl.
    rewrite app_nil_r. reflexivity.
  - unfold windows. simpl. fold (windows rt cfg h).
    destruct (for_line rt cfg line) as [|c|e] eqn:Hline.
    + rewrite (for_each_continue rt cfg line h Hline) in H.
      apply IH in H. exact H.
    + rewrite (extract_yield rt cfg line h c Hline), for_each_yield in H.
      destruct (counted_fields c s) as [Hc _].
      destruct (coords_ok_of c) eqn:Hok.
      * rewrite (loop_body_good rt cfg c s Hok) in H.
        destruct (run_result (command_of cfg (window cfg c)) (counted rt c s))
          as [[s2 [Hr [Hc2 _]]]|[msg [s2 [Hr Hc2]]]];
          rewrite Hr in H.
        -- apply IH in H. destruct H as [k Hk]. exists (S k).
           rewrite Hk, Hc2, Hc. simpl.
           rewrite <- app_assoc. reflexivity.
        -- inversion H. subst. exists 1%nat.
           rewrite Hc2, Hc. reflexivity.
      * rewrite (loop_body_bad rt cfg c s Hok) in H.
        inversion H. subst. exists 0%nat. rewrite Hc. simpl.
        rewrite app_nil_r. reflexivity.
    + rewrite (extract_exit rt cfg line h e Hline) in H.
      inversion H. subst. exists 0%nat. simpl.
      rewrite app_nil_r. reflexivity.
Qed.

Lemma candidates_loop_unfold (h : list string) (s : St) :
  candidates_loop rt cfg h s
  = for_each rt cfg (extract_candidates rt cfg h) (reset rt s).
Proof. reflexivity. Qed.

Lemma main_ok (h : list string) (s s' : St) :
  main rt cfg h s = (Ok tt, s') ->
  exists s1,
    candidates_loop rt cfg h s = (Ok tt, s1)
    /\ s' = {| count := count s1; stdout := stdout s1;
               stderr := stderr s1
                           ++ [PyStr.fmt_i (count s1) ++ " candidates"
                                 ++ PyStr.chr PyStr.lf];
               cmds := cmds s1; world := world s1 |}.
Proof.
  unfold main, bind.
  destruct (candidates_loop rt cfg h s) as [[[]|e] s1]; intros H.
  - exists s1. split; [reflexivity|].
    unfold get_count, stderr_write in H. inversion H. reflexivity.
  - discriminate.
Qed.

End RunFacts.

(** C7. When a report is processed to the end without an exception, the
    text written to standard error is the number of records that passed
    the filter followed by [ candidates]; that number is also the final
    count and the number of [blastdbcmd] commands the run has issued. *)
Theorem count_reported (rt : Runtime) (cfg : Settings) (h : list string)
    (s s' : state (World rt)) :
  main rt cfg h s = (Ok tt, s') ->
  let n := List.length (filter (passed rt cfg) h) in
  stderr s' = (stderr s ++ [(PyStr.fmt_i (Z.of_nat n) ++ " candidates"
                               ++ PyStr.chr PyStr.lf)%string])%list
  /\ count s' = Z.of_nat n
  /\ List.length (cmds s') = (List.length (cmds s) + n)%nat
  /\ n = List.length (windows rt cfg h).
Proof.
  intros H n.
  destruct (main_ok rt cfg h s s' H) as [s1 [Hloop ->]]. simpl.
  rewrite candidates_loop_unfold in Hloop.
  apply loop_complete in Hloop. destruct Hloop as [Hc [Hn He]].
  simpl in Hc, Hn, He.
  assert (Hlen : List.length (windows rt cfg h) = n) by apply windows_length.
  rewrite Hlen in Hn. rewrite Hn, He, Hc. simpl.
  repeat split.
  - rewrite length_app, length_map, Hlen. reflexivity.
  - symmetry. exact Hlen.
Qed.

(** Two records pass, one is below the identity threshold. *)
Lemma count_reported_witness :
  stderr (Plain.after 1 Plain.three_rows) = ["2 candidates" ++ PyStr.chr PyStr.lf]
  /\ count (Plain.after 1 Plain.three_rows) = 2
  /\ List.length (cmds (Plain.after 1 Plain.three_rows)) = 2%nat.
Proof.
  assert (Hrun : main Plain.runtime (Plain.settings 95 95 50 50)
                   Plain.three_rows (Plain.initial [])
                 = (Ok tt, Plain.after 1 Plain.three_rows))
    by (vm_compute; reflexivity).
  destruct (count_reported Plain.runtime (Plain.settings 95 95 50 50)
              Plain.three_rows (Plain.initial [])
              (Plain.after 1 Plain.three_rows) Hrun) as [H1 [H2 [H3 _]]].
  vm_compute in H1, H2, H3 |- *. auto.
Defined.

(** C8. The windows a run asks for are those of the records of the report
    that pass the filter, in the order of the report: a run that ends
    early has asked for the first of them, and two runs to the end over
    the same lines with the same settings, from whatever states, have
    asked for the same windows in the same order. *)
Theorem windows_repeatable (rt : Runtime) (cfg : Settings) (h : list string) :
  (forall (s s' : state (World rt)) (r : result unit),
      main rt cfg h s = (r, s') ->
      exists k : nat,
        cmds s' = (cmds s ++ map (command_of cfg)
                                 (firstn k (windows rt cfg h)))%list)
  /\ (forall s1 s1' s2 s2' : state (World rt),
         main rt cfg h s1 = (Ok tt, s1') ->
         main rt cfg h s2 = (Ok tt, s2') ->
         cmds s1' = (cmds s1 ++ map (command_of cfg) (windows rt cfg h))%list
         /\ cmds s2' = (cmds s2 ++ map (command_of cfg) (windows rt cfg h))%list).
Proof.
  split.
  - intros s s' r H. unfold main, bind in H.
    destruct (candidates_loop rt cfg h s) as [[[]|e] s1] eqn:Hloop.
    + unfold get_count, stderr_write in H. inversion H. subst. simpl.
      rewrite candidates_loop_unfold in Hloop.
      apply loop_prefix in Hloop. exact Hloop.
    + inversion H. subst.
      rewrite candidates_loop_unfold in Hloop.
      apply loop_prefix in Hloop. exact Hloop.
  - assert (Hone : forall s s' : state (World rt),
               main rt cfg h s = (Ok tt, s') ->
               cmds s' = (cmds s ++ map (command_of cfg) (windows rt cfg h))%list).
    { intros s s' H.
      destruct (main_ok rt cfg h s s' H) as [s1 [Hloop ->]]. simpl.
      rewrite candidates_loop_unfold in Hloop.
      apply loop_complete in Hloop. destruct Hloop as [Hc _]. exact Hc. }
    intros s1 s1' s2 s2' H1 H2. split; apply Hone; assumption.
Qed.

(** The second run starts where the first ended. *)
Lemma windows_repeatable_witness :
  cmds (Plain.after 1 Plain.two_hits)
  = (cmds (Plain.initial [])
       ++ map (command_of (Plain.settings 95 95 50 50))
            (windows Plain.runtime (Plain.settings 95 95 50 50) Plain.two_hits))%list
  /\ cmds (Plain.after 2 Plain.two_hits)
     = (cmds (Plain.after 1 Plain.two_hits)
          ++ map (command_of (Plain.settings 95 95 50 50))
               (windows Plain.runtime (Plain.settings 95 95 50 50) Plain.two_hits))%list.
Proof.
  apply (proj2 (windows_repeatable Plain.runtime (Plain.settings 95 95 50 50)
                  Plain.two_hits)).
  - vm_compute. reflexivity.
  - vm_compute. reflexivity.
Defined.

(** ** The assertion and the filter *)

Section AssertionFacts.

Context (rt : Runtime) (cfg : Settings).

Local Abbreviation St := (state (World rt)).

(** The generator never raises [AssertionError]. *)
Lemma for_line_exit_kind (line : string) (e : exn) (msg : string) :
  for_line rt cfg line = Exit e -> e <> AssertionError msg.
Proof.
  unfold for_line, yield_fields.
  repeat match goal with
         | |- context [if ?b then _ else _] => destruct b
         | |- context [match ?o with Some _ => _ | None => _ end] => destruct o
         end;
    intros H; inversion H; discriminate.
Qed.

Lemma loop_assertion_split (h : list string) (s s' : St) (msg : string) :
  for_each rt cfg (extract_candidates rt cfg h) s
  = (Raise (AssertionError msg), s') ->
  exists (pre rest : list string) (line : string) (s1 : St) (c : candidate),
    h = (pre ++ line :: rest)%list
    /\ for_each rt cfg (extract_candidates rt cfg pre) s = (Ok tt, s1)
    /\ for_line rt cfg line = YieldV c
    /\ coords_ok_of c = false.
Proof.
  revert s. induction h as [|line h IH]; intros s H.
  - simpl in H. discriminate.
  - destruct (for_line rt cfg line) as [|c|e] eqn:Hline.
    + rewrite (for_each_continue rt cfg line h Hline) in H.
      destruct (IH s H) as (pre & rest & l & s1 & c & -> & Hpre & Hl & Hc).
      exists (line :: pre), rest, l, s1, c. repeat split; auto.
      simpl. rewrite Hline. exact Hpre.
    + rewrite (extract_yield rt cfg line h c Hline), for_each_yield in H.
      destruct (coords_ok_of c) eqn:Hok.
      * rewrite (loop_body_good rt cfg c s Hok) in H.
        destruct (run_result rt (command_of cfg (window cfg c)) (counted rt c s))
          as [[s2 [Hr _]]|[m [s2 [Hr _]]]]; rewrite Hr in H;
          [|discriminate].
        destruct (IH s2 H) as (pre & rest & l & s1 & c' & -> & Hpre & Hl & Hc).
        exists (line :: pre), rest, l, s1, c'. repeat split; auto.
        rewrite (extract_yield rt cfg line pre c Hline), for_each_yield.
        rewrite (loop_body_good rt cfg c s Hok), Hr. exact Hpre.
      * exists [], h, line, s, c. repeat split; auto.
    + rewrite (extract_exit rt cfg line h e Hline) in H.
      inversion H. subst.
      exfalso. exact (for_line_exit_kind line _ msg Hline eq_refl).
Qed.

Lemma main_raise (h : list string) (s s' : St) (e : exn) :
  main rt cfg h s = (Raise e, s') ->
  candidates_loop rt cfg h s = (Raise e, s').
Proof.
  unfold main, bind.
  destruct (candidates_loop rt cfg h s) as [[[]|e'] s1]; intros H.
  - unfold get_count, stderr_write in H. discriminate.
  - exact H.
Qed.

End AssertionFacts.

(** C10, as it is stated, fails: with a line of six fields first, the run
    ends on that line and the reversed record behind it, which passes the
    filter, never reaches the assertion. *)
Lemma assertion_preempted :
  ~ ((exists (msg : string) (s' : state (list Z)),
         main Plain.runtime (Plain.settings 95 95 50 50)
           [Plain.row ["Q0"; "S0"; "96.0"; "10"; "20"; "1000"];
            Plain.row ["Q1"; "S1"; "96.0"; "98.0"; "20"; "10"; "1000"]]
           (Plain.initial [])
         = (Raise (AssertionError msg), s'))
     <-> (exists (line idn : string) (start end_ length : Z),
             In line [Plain.row ["Q0"; "S0"; "96.0"; "10"; "20"; "1000"];
                      Plain.row ["Q1"; "S1"; "96.0"; "98.0"; "20"; "10"; "1000"]]
             /\ for_line Plain.runtime (Plain.settings 95 95 50 50) line
                = YieldV (idn, start, end_, length)
             /\ coords_ok start end_ length = false)).
Proof.
  intros [_ H].
  destruct H as [msg [s' Hrun]].
  - exists (Plain.row ["Q1"; "S1"; "96.0"; "98.0"; "20"; "10"; "1000"]),
      "S1", 20, 10, 1000.
    split; [right; left; reflexivity|]. split; reflexivity.
  - vm_compute in Hrun. discriminate.
Qed.

(** C10, amended. The assertion of line 205 concerns only the records the
    generator yields.  A record whose identity or coverage is below its
    threshold is passed over whatever its coordinate fields hold, and the
    run is the run without it.  The run ends with [AssertionError] if and
    only if the report holds a record that passes the filter and breaks
    [1 <= start < end <= length] and the lines before it are processed
    without an exception. *)
Theorem assertion_only_after_filter (rt : Runtime) (cfg : Settings) :
  (forall (line : string) (identity coverage : spec_float),
      let parts := PyStr.split PyStr.tab (PyStr.rstrip PyStr.lf line) in
      PyStr.startswith "#" line = false ->
      List.length parts = col_count ->
      py_float rt (field parts c_identity) = Some identity ->
      py_float rt (field parts c_coverage) = Some coverage ->
      (PyFloat.ltb identity (min_identity cfg)
       || PyFloat.ltb coverage (min_coverage cfg))%bool = true ->
      for_line rt cfg line = Continue
      /\ forall (pre rest : list string) (s : state (World rt)),
           main rt cfg (pre ++ line :: rest) s = main rt cfg (pre ++ rest) s)
  /\ (forall (h : list string) (s : state (World rt)),
         (exists (msg : string) (s' : state (World rt)),
             main rt cfg h s = (Raise (AssertionError msg), s'))
         <-> (exists (pre rest : list string) (line idn : string)
                     (start end_ length : Z) (s1 : state (World rt)),
                 h = (pre ++ line :: rest)%list
                 /\ candidates_loop rt cfg pre s = (Ok tt, s1)
                 /\ for_line rt cfg line = YieldV (idn, start, end_, length)
                 /\ coords_ok start end_ length = false)).
Proof.
  split.
  - intros line identity coverage parts Hc Hn Hi Hv Hlow.
    assert (Hline : for_line rt cfg line = Continue).
    { rewrite (for_line_filter rt cfg line identity coverage Hc Hn Hi Hv).
      rewrite Hlow. reflexivity. }
    split; [exact Hline|].
    intros pre rest s. unfold main, candidates_loop.
    rewrite (skip_line rt cfg pre rest line Hline). reflexivity.
  - intros h s. split.
    + intros [msg [s' H]]. apply main_raise in H.
      rewrite candidates_loop_unfold in H.
      apply loop_assertion_split in H.
      destruct H as (pre & rest & line & s1 & c & Hh & Hpre & Hl & Hc).
      destruct c as [[[idn start] end_] length].
      exists pre, rest, line, idn, start, end_, length, s1.
      repeat split; auto.
    + intros (pre & rest & line & idn & start & end_ & length & s1
              & -> & Hpre & Hl & Hc).
      exists "Reverse strand?". eexists.
      exact (reversed_record_core rt cfg pre rest line s s1 idn start end_
               length Hpre Hl Hc).
Qed.

(** A record that passes, then the record with start 20 and end 10. *)
Lemma assertion_only_after_filter_witness :
  exists (msg : string) (s' : state (list Z)),
    main Plain.runtime (Plain.settings 95 95 50 50)
      [Plain.row ["Q1"; "S1"; "96.0"; "98.0"; "10"; "20"; "1000"];
       Plain.row ["Q2"; "S2"; "96.0"; "98.0"; "20"; "10"; "1000"]]
      (Plain.initial [])
    = (Raise (AssertionError msg), s').
Proof.
  apply (proj2 (proj2 (assertion_only_after_filter Plain.runtime
                         (Plain.settings 95 95 50 50))
                  [Plain.row ["Q1"; "S1"; "96.0"; "98.0"; "10"; "20"; "1000"];
                   Plain.row ["Q2"; "S2"; "96.0"; "98.0"; "20"; "10"; "1000"]]
                  (Plain.initial []))).
  exists [Plain.row ["Q1"; "S1"; "96.0"; "98.0"; "10"; "20"; "1000"]], [],
    (Plain.row ["Q2"; "S2"; "96.0"; "98.0"; "20"; "10"; "1000"]),
    "S2", 20, 10, 1000.
  eexists. split; [reflexivity|]. split; [vm_compute; reflexivity|].
  split; vm_compute; reflexivity.
Defined.


(** * Further properties *)

(** ** Cutting a line into fields *)

Lemma split_length (sep : ascii) (s : string) :
  List.length (PyStr.split sep s) = S (occurrences sep s).
Proof.
  induction s as [|a s IH]; simpl; [reflexivity|].
  destruct (Ascii.eqb a sep); simpl.
  - rewrite IH. reflexivity.
  - destruct (PyStr.split sep s) as [|p ps]; simpl in *; [discriminate|exact IH].
Qed.

Lemma rstrip_occurrences (c d : ascii) (s : string) :
  Ascii.eqb c d = false ->
  occurrences d (PyStr.rstrip c s) = occurrences d s.
Proof.
  intros Hcd. induction s as [|a s IH]; simpl; [reflexivity|].
  destruct (PyStr.rstrip c s) as [|b r] eqn:Hr.
  - simpl in IH. rewrite <- IH.
    destruct (Ascii.eqb a c) eqn:Hac; simpl.
    + apply Ascii.eqb_eq in Hac. subst a. rewrite Hcd. reflexivity.
    + rewrite Nat.add_0_r. reflexivity.
  - simpl. simpl in IH. rewrite IH. reflexivity.
Qed.

Lemma rstrip_appended (c : ascii) (s : string) :
  occurrences c s = O -> PyStr.rstrip c (s ++ PyStr.chr c) = s.
Proof.
  induction s as [|a s IH]; simpl.
  - intros _. rewrite Ascii.eqb_refl. reflexivity.
  - destruct (Ascii.eqb a c) eqn:Hac; simpl; [discriminate|].
    intros H. rewrite (IH H).
    destruct s; reflexivity.
Qed.

Lemma split_whole (sep : ascii) (f : string) :
  occurrences sep f = O -> PyStr.split sep f = [f].
Proof.
  induction f as [|a f IH]; simpl; [reflexivity|].
  destruct (Ascii.eqb a sep); simpl; [discriminate|].
  intros H. rewrite (IH H). reflexivity.
Qed.

Lemma split_app_sep (sep : ascii) (f r : string) :
  occurrences sep f = O ->
  PyStr.split sep (f ++ String sep r) = f :: PyStr.split sep r.
Proof.
  induction f as [|a f IH]; simpl.
  - intros _. rewrite Ascii.eqb_refl. reflexivity.
  - destruct (Ascii.eqb a sep); simpl; [discriminate|].
    intros H. rewrite (IH H). reflexivity.
Qed.

Lemma split_join (sep : ascii) (fields : list string) :
  fields <> [] ->
  Forall (fun f => occurrences sep f = O) fields ->
  PyStr.split sep (PyStr.join (PyStr.chr sep) fields) = fields.
Proof.
  induction fields as [|f [|g fields] IH]; intros Hne Hall.
  - contradiction.
  - simpl. apply split_whole. inversion Hall. assumption.
  - change (PyStr.join (PyStr.chr sep) (f :: g :: fields))
      with (f ++ String sep (PyStr.join (PyStr.chr sep) (g :: fields))).
    inversion Hall as [|? ? Hf Hrest]; subst.
    rewrite (split_app_sep sep f _ Hf), IH; [reflexivity|discriminate|exact Hrest].
Qed.

Lemma occurrences_app (c : ascii) (s t : string) :
  occurrences c (s ++ t) = (occurrences c s + occurrences c t)%nat.
Proof.
  induction s as [|a s IH]; simpl; [reflexivity|]. rewrite IH. lia.
Qed.

Lemma occurrences_join (c sep : ascii) (fields : list string) :
  Ascii.eqb sep c = false ->
  Forall (fun f => occurrences c f = O) fields ->
  occurrences c (PyStr.join (PyStr.chr sep) fields) = O.
Proof.
  intros Hsc. induction fields as [|f [|g fields] IH]; intros Hall.
  - reflexivity.
  - simpl. inversion Hall. assumption.
  - change (PyStr.join (PyStr.chr sep) (f :: g :: fields))
      with (f ++ String sep (PyStr.join (PyStr.chr sep) (g :: fields))).
    inversion Hall as [|? ? Hf Hrest]; subst.
    rewrite occurrences_app, Hf.
    change (occurrences c (String sep (PyStr.join (PyStr.chr sep) (g :: fields))))
      with ((if Ascii.eqb sep c then 1 else 0)
            + occurrences c (PyStr.join (PyStr.chr sep) (g :: fields)))%nat.
    rewrite Hsc, (IH Hrest). reflexivity.
Qed.

(** X1. The column check counts tab characters: a line that is not a
    comment is cut into one field more than it holds tabs, trailing
    newlines or not, and the generator exits on it exactly when it does
    not hold six tabs. *)
Theorem column_check_counts_tabs (rt : Runtime) (cfg : Settings) (line : string) :
  List.length (parts_of line) = S (occurrences PyStr.tab line)
  /\ (PyStr.startswith "#" line = false ->
      (for_line rt cfg line
       = Exit (SystemExit (malformed_msg 7 (S (occurrences PyStr.tab line)) line))
       <-> occurrences PyStr.tab line <> 6%nat)).
Proof.
  assert (Hlen : List.length (parts_of line) = S (occurrences PyStr.tab line)).
  { unfold parts_of. rewrite split_length.
    rewrite (rstrip_occurrences PyStr.lf PyStr.tab line eq_refl). reflexivity. }
  split; [exact Hlen|].
  intros Hc. unfold parts_of in Hlen. unfold for_line. rewrite Hc, Hlen.
  change col_count with 7%nat.
  destruct (Nat.eqb (S (occurrences PyStr.tab line)) 7) eqn:E; simpl.
  - apply Nat.eqb_eq in E. split; [|lia].
    intros H. exfalso.
    destruct (py_float rt _); [|discriminate].
    destruct (PyFloat.ltb _ _); [discriminate|].
    destruct (py_float rt _); [|discriminate].
    destruct (PyFloat.ltb _ _); [discriminate|].
    unfold yield_fields in H.
    repeat (destruct (py_int rt _); [|discriminate]). discriminate.
  - apply Nat.eqb_neq in E. split; [lia|reflexivity].
Qed.

Lemma column_check_counts_tabs_witness :
  for_line Plain.runtime (Plain.settings 95 95 50 50)
    (Plain.row ["Q1"; "S1"; "96.0"; "98.0"; "10"; "20"; "1000"; EmptyString])
  = Exit (SystemExit (malformed_msg 7 8
      (Plain.row ["Q1"; "S1"; "96.0"; "98.0"; "10"; "20"; "1000"; EmptyString]))).
Proof.
  apply (proj2 (column_check_counts_tabs Plain.runtime (Plain.settings 95 95 50 50)
                  (Plain.row ["Q1"; "S1"; "96.0"; "98.0"; "10"; "20"; "1000";
                              EmptyString])) eq_refl).
  vm_compute. discriminate.
Defined.

(** X2. A blank line is not skipped: a line made of newline characters
    only, the empty line included, is one empty field and the generator
    exits on it. *)
Theorem blank_line_is_fatal (rt : Runtime) (cfg : Settings) (line : string) :
  forallb (Ascii.eqb PyStr.lf) (list_ascii_of_string line) = true ->
  parts_of line = [EmptyString]
  /\ for_line rt cfg line = Exit (SystemExit (malformed_msg 7 1 line)).
Proof.
  intros Hall.
  assert (Hstrip : PyStr.rstrip PyStr.lf line = EmptyString).
  { induction line as [|a line IH]; [reflexivity|].
    cbn [forallb list_ascii_of_string] in Hall.
    apply andb_prop in Hall as [Ha Hrest].
    apply Ascii.eqb_eq in Ha. subst a.
    cbn [PyStr.rstrip]. rewrite (IH Hrest). reflexivity. }
  assert (Hc : PyStr.startswith "#" line = false).
  { destruct line as [|a line]; [reflexivity|].
    cbn [forallb list_ascii_of_string] in Hall.
    apply andb_prop in Hall as [Ha _]. apply Ascii.eqb_eq in Ha. subst a.
    reflexivity. }
  unfold parts_of, for_line. rewrite Hc, Hstrip. split; reflexivity.
Qed.

Lemma blank_line_is_fatal_witness :
  for_line Plain.runtime (Plain.settings 95 95 50 50) (PyStr.chr PyStr.lf)
  = Exit (SystemExit (malformed_msg 7 1 (PyStr.chr PyStr.lf))).
Proof.
  exact (proj2 (blank_line_is_fatal Plain.runtime (Plain.settings 95 95 50 50)
                  (PyStr.chr PyStr.lf) eq_refl)).
Defined.

(** X3. Cutting undoes joining: fields that hold neither a tab nor a
    newline, joined by tabs and ended by a newline, are cut by line 189
    into those same fields. *)
Theorem row_fields_recovered (fields : list string) :
  fields <> [] ->
  Forall (fun f => occurrences PyStr.tab f = O) fields ->
  Forall (fun f => occurrences PyStr.lf f = O) fields ->
  parts_of (PyStr.join (PyStr.chr PyStr.tab) fields ++ PyStr.chr PyStr.lf)
  = fields.
Proof.
  intros Hne Htab Hlf. unfold parts_of.
  rewrite rstrip_appended.
  - apply split_join; assumption.
  - apply occurrences_join; [reflexivity|assumption].
Qed.

Lemma row_fields_recovered_witness :
  parts_of (PyStr.join (PyStr.chr PyStr.tab) ["Q1"; EmptyString; "96.0"]
              ++ PyStr.chr PyStr.lf)
  = ["Q1"; EmptyString; "96.0"].
Proof.
  apply (row_fields_recovered ["Q1"; EmptyString; "96.0"]).
  - discriminate.
  - repeat constructor.
  - repeat constructor.
Defined.

(** ** Fields that are not numbers *)

Section FieldFacts.

Context (rt : Runtime) (cfg : Settings).

Local Abbreviation St := (state (World rt)).

Lemma exit_line_halts (pre rest : list string) (line : string) (s s1 : St)
    (e : exn) :
  candidates_loop rt cfg pre s = (Ok tt, s1) ->
  for_line rt cfg line = Exit e ->
  main rt cfg (pre ++ line :: rest) s = (Raise e, s1).
Proof.
  intros Hpre Hline. apply main_of_loop_raise.
  rewrite (candidates_loop_app rt cfg pre (line :: rest) s s1 Hpre).
  rewrite (extract_exit rt cfg line rest e Hline). reflexivity.
Qed.

Lemma for_line_fields (line : string) :
  PyStr.startswith "#" line = false ->
  List.length (parts_of line) = col_count ->
  for_line rt cfg line
  = match py_float rt (field (parts_of line) c_identity) with
    | None => Exit (ValueError (field (parts_of line) c_identity))
    | Some identity =>
        if PyFloat.ltb identity (min_identity cfg) then Continue
        else
          match py_float rt (field (parts_of line) c_coverage) with
          | None => Exit (ValueError (field (parts_of line) c_coverage))
          | Some coverage =>
              if PyFloat.ltb coverage (min_coverage cfg) then Continue
              else yield_fields rt (parts_of line)
          end
    end.
Proof.
  intros Hc Hn. unfold for_line. fold (parts_of line).
  rewrite Hc, Hn, Nat.eqb_refl. reflexivity.
Qed.

End FieldFacts.

(** X4. A line of seven fields whose identity is not a number ends the
    run with [ValueError] on that field, and so does one whose identity is
    not below the threshold and whose coverage is not a number.  The state
    is the one the earlier lines left: nothing is counted for the line and
    the lines after it are not read. *)
Theorem unparsable_percentage_halts (rt : Runtime) (cfg : Settings)
    (pre rest : list string) (line : string) (s s1 : state (World rt)) :
  PyStr.startswith "#" line = false ->
  List.length (parts_of line) = 7%nat ->
  candidates_loop rt cfg pre s = (Ok tt, s1) ->
  (py_float rt (field (parts_of line) c_identity) = None ->
   main rt cfg (pre ++ line :: rest) s
   = (Raise (ValueError (field (parts_of line) c_identity)), s1))
  /\ (forall identity : spec_float,
         py_float rt (field (parts_of line) c_identity) = Some identity ->
         PyFloat.ltb identity (min_identity cfg) = false ->
         py_float rt (field (parts_of line) c_coverage) = None ->
         main rt cfg (pre ++ line :: rest) s
         = (Raise (ValueError (field (parts_of line) c_coverage)), s1)).
Proof.
  intros Hc Hn Hpre.
  pose proof (for_line_fields rt cfg line Hc Hn) as E.
  split.
  - intros Hi. apply exit_line_halts; [exact Hpre|].
    rewrite E, Hi. reflexivity.
  - intros identity Hi Hlt Hv. apply exit_line_halts; [exact Hpre|].
    rewrite E, Hi, Hlt, Hv. reflexivity.
Qed.

Lemma unparsable_percentage_halts_witness :
  main Plain.runtime (Plain.settings 95 95 50 50)
    ([Plain.row ["Q1"; "S1"; "96.0"; "98.0"; "10"; "20"; "1000"]]
       ++ Plain.row ["Q2"; "S2"; "n/a"; "98.0"; "10"; "20"; "1000"]
       :: [Plain.row ["Q3"; "S3"; "96.0"; "98.0"; "10"; "20"; "1000"]])
    (Plain.initial [])
  = (Raise (ValueError "n/a"),
     {| count := 1;
        stdout := ["S1 10 20 1000" ++ PyStr.chr PyStr.lf];
        stderr := [];
        cmds := [blastdbcmd (Plain.settings 95 95 50 50) "S1" 1 70];
        world := [] |}).
Proof.
  refine (proj1 (unparsable_percentage_halts Plain.runtime
           (Plain.settings 95 95 50 50)
           [Plain.row ["Q1"; "S1"; "96.0"; "98.0"; "10"; "20"; "1000"]]
           [Plain.row ["Q3"; "S3"; "96.0"; "98.0"; "10"; "20"; "1000"]]
           (Plain.row ["Q2"; "S2"; "n/a"; "98.0"; "10"; "20"; "1000"])
           (Plain.initial []) _ eq_refl eq_refl eq_refl) eq_refl).
Defined.

(** X5. A record that passes the filter and whose start, end or length is
    not an integer ends the run with [ValueError] on the first such field:
    the [yield] of line 198 never happens, so the record is neither
    counted nor printed. *)
Theorem unparsable_coordinate_halts (rt : Runtime) (cfg : Settings)
    (pre rest : list string) (line : string) (s s1 : state (World rt))
    (identity coverage : spec_float) :
  PyStr.startswith "#" line = false ->
  List.length (parts_of line) = 7%nat ->
  py_float rt (field (parts_of line) c_identity) = Some identity ->
  PyFloat.ltb identity (min_identity cfg) = false ->
  py_float rt (field (parts_of line) c_coverage) = Some coverage ->
  PyFloat.ltb coverage (min_coverage cfg) = false ->
  candidates_loop rt cfg pre s = (Ok tt, s1) ->
  (py_int rt (field (parts_of line) c_sstart) = None
   \/ py_int rt (field (parts_of line) c_send) = None
   \/ py_int rt (field (parts_of line) c_slen) = None) ->
  exists i : nat,
    In i [c_sstart; c_send; c_slen]
    /\ py_int rt (field (parts_of line) i) = None
    /\ (forall j : nat, In j [c_sstart; c_send; c_slen] -> (j < i)%nat ->
        py_int rt (field (parts_of line) j) <> None)
    /\ main rt cfg (pre ++ line :: rest) s
       = (Raise (ValueError (field (parts_of line) i)), s1).
Proof.
  intros Hc Hn Hi Hil Hv Hvl Hpre Hbad.
  pose proof (for_line_fields rt cfg line Hc Hn) as E.
  rewrite Hi, Hil, Hv, Hvl in E. unfold yield_fields in E.
  destruct (py_int rt (field (parts_of line) c_sstart)) as [a|] eqn:Ha.
  - destruct (py_int rt (field (parts_of line) c_send)) as [b|] eqn:Hb.
    + destruct (py_int rt (field (parts_of line) c_slen)) as [c|] eqn:Hl.
      * exfalso. destruct Hbad as [H|[H|H]]; discriminate.
      * exists c_slen. repeat split.
        -- simpl. auto.
        -- exact Hl.
        -- intros j [<-|[<-|[<-|[]]]] Hlt; try congruence.
           unfold c_slen in Hlt. lia.
        -- apply exit_line_halts; assumption.
    + exists c_send. repeat split.
      * simpl. auto.
      * exact Hb.
      * intros j [<-|[<-|[<-|[]]]] Hlt; try congruence;
          unfold c_send, c_slen in Hlt; lia.
      * apply exit_line_halts; assumption.
  - exists c_sstart. repeat split.
    + simpl. auto.
    + exact Ha.
    + intros j [<-|[<-|[<-|[]]]] Hlt;
        unfold c_sstart, c_send, c_slen in Hlt; lia.
    + apply exit_line_halts; assumption.
Qed.

Lemma unparsable_coordinate_halts_witness :
  exists i : nat,
    In i [c_sstart; c_send; c_slen]
    /\ py_int Plain.runtime
         (field (parts_of (Plain.row ["Q2"; "S2"; "96.0"; "98.0"; "10"; "2e1"; "?"])) i)
       = None
    /\ (forall j : nat, In j [c_sstart; c_send; c_slen] -> (j < i)%nat ->
        py_int Plain.runtime
          (field (parts_of (Plain.row ["Q2"; "S2"; "96.0"; "98.0"; "10"; "2e1"; "?"])) j)
        <> None)
    /\ main Plain.runtime (Plain.settings 95 95 50 50)
         ([] ++ Plain.row ["Q2"; "S2"; "96.0"; "98.0"; "10"; "2e1"; "?"] :: [])
         (Plain.initial [])
       = (Raise (ValueError
                   (field (parts_of (Plain.row ["Q2"; "S2"; "96.0"; "98.0"; "10"; "2e1"; "?"])) i)),
          Plain.initial []).
Proof.
  apply (unparsable_coordinate_halts Plain.runtime (Plain.settings 95 95 50 50)
           [] [] (Plain.row ["Q2"; "S2"; "96.0"; "98.0"; "10"; "2e1"; "?"])
           (Plain.initial []) (Plain.initial [])
           (PyFloat.of_int 96) (PyFloat.of_int 98)).
  - vm_compute. reflexivity.
  - vm_compute. reflexivity.
  - vm_compute. reflexivity.
  - vm_compute. reflexivity.
  - vm_compute. reflexivity.
  - vm_compute. reflexivity.
  - vm_compute. reflexivity.
  - right. left. vm_compute. reflexivity.
Defined.

(** X6. The [or] of line 196 stops at the identity: a line of seven fields
    whose identity is below the threshold is passed over without its
    coverage or its coordinates being converted, so nothing is raised for
    it whatever those fields hold, and the run is the run without it. *)
Theorem low_identity_hides_other_fields (rt : Runtime) (cfg : Settings)
    (line : string) (identity : spec_float) :
  PyStr.startswith "#" line = false ->
  List.length (parts_of line) = 7%nat ->
  py_float rt (field (parts_of line) c_identity) = Some identity ->
  PyFloat.ltb identity (min_identity cfg) = true ->
  for_line rt cfg line = Continue
  /\ forall (pre rest : list string) (s : state (World rt)),
       main rt cfg (pre ++ line :: rest) s = main rt cfg (pre ++ rest) s.
Proof.
  intros Hc Hn Hi Hlt.
  assert (Hline : for_line rt cfg line = Continue).
  { rewrite (for_line_fields rt cfg line Hc Hn), Hi, Hlt. reflexivity. }
  split; [exact Hline|].
  intros pre rest s. unfold main, candidates_loop.
  rewrite (skip_line rt cfg pre rest line Hline). reflexivity.
Qed.

Lemma low_identity_hides_other_fields_witness :
  for_line Plain.runtime (Plain.settings 95 95 50 50)
    (Plain.row ["Q2"; "S2"; "80.0"; "n/a"; "x"; "y"; "z"])
  = Continue.
Proof.
  exact (proj1 (low_identity_hides_other_fields Plain.runtime
                  (Plain.settings 95 95 50 50)
                  (Plain.row ["Q2"; "S2"; "80.0"; "n/a"; "x"; "y"; "z"])
                  (PyFloat.of_int 80) eq_refl eq_refl eq_refl eq_refl)).
Defined.

(** ** What a run leaves behind *)

Section TraceFacts.

Context (rt : Runtime) (cfg : Settings).

Local Abbreviation St := (state (World rt)).

Lemma run_frame (cmd : string) (s : St) :
  count (snd (run rt cmd s)) = count s
  /\ stdout (snd (run rt cmd s)) = stdout s
  /\ stderr (snd (run rt cmd s)) = stderr s
  /\ cmds (snd (run rt cmd s)) = (cmds s ++ [cmd])%list
  /\ (fst (run rt cmd s) = Ok tt
      \/ exists msg, fst (run rt cmd s) = Raise (SystemExit msg)).
Proof.
  unfold run. destruct (os_system rt cmd (world s)) as [rc w].
  destruct (rc =? 0); simpl; repeat split; eauto.
Qed.

Lemma counted_stdout (c : candidate) (s : St) :
  stdout (counted rt c s) = (stdout s ++ [printed_of c])%list.
Proof. destruct c as [[[idn start] end_] length]. reflexivity. Qed.

Lemma candidates_of_cons (line : string) (h : list string) :
  candidates_of rt cfg (line :: h)
  = (match for_line rt cfg line with
     | YieldV c => [c]
     | _ => []
     end ++ candidates_of rt cfg h)%list.
Proof. reflexivity. Qed.

Lemma extract_stop (h : list string) :
  Forall (fun line => for_line rt cfg line = Continue) h ->
  extract_candidates rt cfg h = Stop.
Proof.
  induction 1 as [|line h Hline _ IH]; simpl; [reflexivity|].
  rewrite Hline. exact IH.
Qed.

(** The loop, however it ends: [n] records were counted and printed, the
    first [n] the report yields, and commands were run for the first [k]
    of them, all with coordinates in order; [n] is [k], or [k + 1] when
    the assertion stopped the loop. *)
Lemma loop_trace (h : list string) (s s' : St) (r : result unit) :
  for_each rt cfg (extract_candidates rt cfg h) s = (r, s') ->
  exists n k : nat,
    count s' = count s + Z.of_nat n
    /\ stdout s' = (stdout s ++ map printed_of (firstn n (candidates_of rt cfg h)))%list
    /\ cmds s' = (cmds s ++ map (fun c => command_of cfg (window cfg c))
                              (firstn k (candidates_of rt cfg h)))%list
    /\ Forall (fun c => coords_ok_of c = true) (firstn k (candidates_of rt cfg h))
    /\ stderr s' = stderr s
    /\ (n <= List.length (candidates_of rt cfg h))%nat
    /\ (k <= List.length (candidates_of rt cfg h))%nat
    /\ (((exists msg, r = Raise (AssertionError msg)) /\ n = S k)
        \/ ((forall msg, r <> Raise (AssertionError msg)) /\ n = k)).
Proof.
  revert s. induction h as [|line h IH]; intros s H.
  - simpl in H. inversion H. subst. exists 0%nat, 0%nat. simpl.
    rewrite !app_nil_r, Z.add_0_r. repeat split; auto.
    right. split; [discriminate|reflexivity].
  - rewrite candidates_of_cons.
    destruct (for_line rt cfg line) as [|c|e] eqn:Hline.
    + rewrite (for_each_continue rt cfg line h Hline) in H.
      exact (IH s H).
    + rewrite (extract_yield rt cfg line h c Hline), for_each_yield in H.
      destruct (counted_fields rt c s) as [Hc [Hn He]].
      pose proof (counted_stdout c s) as Ho.
      destruct (coords_ok_of c) eqn:Hok.
      * rewrite (loop_body_good rt cfg c s Hok) in H.
        destruct (run_frame (command_of cfg (window cfg c)) (counted rt c s))
          as [Rn [Ro [Re [Rc Rr]]]].
        destruct (run rt (command_of cfg (window cfg c)) (counted rt c s))
          as [r2 s2] eqn:Hrun. simpl in Rn, Ro, Re, Rc, Rr.
        destruct r2 as [[]|e2].
        -- destruct (IH s2 H) as (n & k & In & Io & Ic & Ik & Ie & Ln & Lk & Ir).
           exists (S n), (S k). simpl.
           rewrite In, Io, Ic, Ie, Rn, Ro, Re, Rc, Hn, Ho, Hc, He.
           rewrite <- !app_assoc. simpl.
           repeat split; auto; try lia.
           destruct Ir as [[Ha ->]|[Ha ->]]; [left|right]; auto.
        -- inversion H. subst. exists 1%nat, 1%nat. simpl.
           rewrite Rn, Ro, Re, Rc, Hn, Ho, Hc, He.
           repeat split; auto; try lia.
           right. split; [|reflexivity].
           destruct Rr as [Rr|[m Rr]]; [discriminate|].
           inversion Rr. subst. discriminate.
      * rewrite (loop_body_bad rt cfg c s Hok) in H. inversion H. subst.
        exists 1%nat, 0%nat. simpl.
        rewrite Hn, Ho, Hc, He, app_nil_r.
        repeat split; auto; try lia.
        left. split; [eexists; reflexivity|reflexivity].
    + rewrite (extract_exit rt cfg line h e Hline) in H. inversion H. subst.
      exists 0%nat, 0%nat. simpl. rewrite !app_nil_r, Z.add_0_r.
      repeat split; auto; try lia.
      right. split; [|reflexivity].
      intros msg Heq. inversion Heq. subst.
      exact (for_line_exit_kind rt cfg line _ msg Hline eq_refl).
Qed.

(** [main] in terms of the loop. *)
Lemma main_cases (h : list string) (s s' : St) (r : result unit) :
  main rt cfg h s = (r, s') ->
  (exists s1,
      for_each rt cfg (extract_candidates rt cfg h) (reset rt s) = (Ok tt, s1)
      /\ r = Ok tt
      /\ s' = {| count := count s1; stdout := stdout s1;
                 stderr := stderr s1
                             ++ [PyStr.fmt_i (count s1) ++ " candidates"
                                   ++ PyStr.chr PyStr.lf];
                 cmds := cmds s1; world := world s1 |})
  \/ (exists e,
         for_each rt cfg (extract_candidates rt cfg h) (reset rt s) = (Raise e, s')
         /\ r = Raise e).
Proof.
  unfold main, bind. rewrite candidates_loop_unfold.
  destruct (for_each rt cfg (extract_candidates rt cfg h) (reset rt s))
    as [[[]|e] s1]; intros H.
  - left. exists s1. unfold get_count, stderr_write in H. inversion H.
    repeat split.
  - right. exists e. inversion H. split; reflexivity.
Qed.

End TraceFacts.

(** X7. When [blastdbcmd] returns a code other than zero for the window of
    a record, [run] exits with [Error <code> from: <command>]: the record
    has been counted and printed and its command run, and the lines after
    it are not read. *)
Theorem failed_extraction_halts (rt : Runtime) (cfg : Settings)
    (pre rest : list string) (line : string) (s s1 : state (World rt))
    (idn : string) (start end_ length : Z) (rc : Z) (w : World rt) :
  candidates_loop rt cfg pre s = (Ok tt, s1) ->
  for_line rt cfg line = YieldV (idn, start, end_, length) ->
  coords_ok start end_ length = true ->
  os_system rt (blastdbcmd cfg idn (req_start cfg start) (req_end cfg end_ length))
    (world s1) = (rc, w) ->
  rc <> 0 ->
  main rt cfg (pre ++ line :: rest) s
  = (Raise (SystemExit
              ("Error " ++ PyStr.fmt_i rc ++ " from: "
                 ++ blastdbcmd cfg idn (req_start cfg start) (req_end cfg end_ length))),
     {| count := count s1 + 1;
        stdout := stdout s1 ++ [printed idn start end_ length];
        stderr := stderr s1;
        cmds := cmds s1 ++ [blastdbcmd cfg idn (req_start cfg start)
                              (req_end cfg end_ length)];
        world := w |}).
Proof.
  intros Hpre Hline Hok Hos Hrc.
  apply main_of_loop_raise.
  rewrite (candidates_loop_app rt cfg pre (line :: rest) s s1 Hpre).
  rewrite (extract_yield rt cfg line rest _ Hline), for_each_yield.
  rewrite (loop_body_good rt cfg (idn, start, end_, length) s1 Hok).
  unfold run. simpl. rewrite Hos.
  apply Z.eqb_neq in Hrc. rewrite Hrc. reflexivity.
Qed.

(** The first [blastdbcmd] returns 256. *)
Lemma failed_extraction_halts_witness :
  main Plain.runtime (Plain.settings 95 95 50 50)
    ([] ++ Plain.row ["Q1"; "S1"; "96.0"; "98.0"; "10"; "20"; "1000"]
        :: [Plain.row ["Q3"; "S3"; "96.0"; "98.0"; "10"; "20"; "1000"]])
    (Plain.initial [256])
  = (Raise (SystemExit
              ("Error " ++ PyStr.fmt_i 256 ++ " from: "
                 ++ blastdbcmd (Plain.settings 95 95 50 50) "S1"
                      (req_start (Plain.settings 95 95 50 50) 10)
                      (req_end (Plain.settings 95 95 50 50) 20 1000))),
     {| count := count (Plain.initial [256]) + 1;
        stdout := stdout (Plain.initial [256]) ++ [printed "S1" 10 20 1000];
        stderr := stderr (Plain.initial [256]);
        cmds := cmds (Plain.initial [256])
                  ++ [blastdbcmd (Plain.settings 95 95 50 50) "S1"
                        (req_start (Plain.settings 95 95 50 50) 10)
                        (req_end (Plain.settings 95 95 50 50) 20 1000)];
        world := [] |}).
Proof.
  apply (failed_extraction_halts Plain.runtime (Plain.settings 95 95 50 50)
           [] [Plain.row ["Q3"; "S3"; "96.0"; "98.0"; "10"; "20"; "1000"]]
           (Plain.row ["Q1"; "S1"; "96.0"; "98.0"; "10"; "20"; "1000"])
           (Plain.initial [256]) (Plain.initial [256]) "S1" 10 20 1000 256 []).
  - vm_compute. reflexivity.
  - vm_compute. reflexivity.
  - vm_compute. reflexivity.
  - vm_compute. reflexivity.
  - discriminate.
Defined.



(** X9. However a run ends, the final count is the number of records it
    printed, and what it printed are the first records that pass the
    filter, in the order of the report, one line each. *)
Theorem printed_records_are_counted (rt : Runtime) (cfg : Settings)
    (h : list string) (s s' : state (World rt)) (r : result unit) :
  main rt cfg h s = (r, s') ->
  exists n : nat,
    count s' = Z.of_nat n
    /\ (n <= List.length (candidates_of rt cfg h))%nat
    /\ stdout s'
       = (stdout s ++ map printed_of (firstn n (candidates_of rt cfg h)))%list.
Proof.
  intros H.
  destruct (main_cases rt cfg h s s' r H)
    as [(s1 & Hloop & _ & ->)|(e' & Hloop & _)];
    destruct (loop_trace rt cfg h (reset rt s) _ _ Hloop)
      as (n & k & Hn & Ho & _ & _ & _ & Ln & _);
    exists n; simpl in *; repeat split; auto.
Qed.

Lemma printed_records_are_counted_witness :
  exists n : nat,
    count (Plain.after 1 Plain.three_rows) = Z.of_nat n
    /\ (n <= List.length (candidates_of Plain.runtime (Plain.settings 95 95 50 50)
                            Plain.three_rows))%nat
    /\ stdout (Plain.after 1 Plain.three_rows)
       = (stdout (Plain.initial [])
            ++ map printed_of
                 (firstn n (candidates_of Plain.runtime (Plain.settings 95 95 50 50)
                              Plain.three_rows)))%list.
Proof.
  apply (printed_records_are_counted Plain.runtime (Plain.settings 95 95 50 50)
           Plain.three_rows (Plain.initial []) (Plain.after 1 Plain.three_rows)
           (Ok tt)).
  vm_compute. reflexivity.
Defined.

(** X10. However a run ends, the final count is the number of
    [blastdbcmd] commands it has run, except when the assertion of line
    205 ended it: then the count is one more, the record that failed
    having been counted before it was checked. *)
Theorem count_trails_commands (rt : Runtime) (cfg : Settings)
    (h : list string) (s s' : state (World rt)) (r : result unit) :
  main rt cfg h s = (r, s') ->
  exists k : nat,
    List.length (cmds s') = (List.length (cmds s) + k)%nat
    /\ (((exists msg, r = Raise (AssertionError msg))
         /\ count s' = Z.of_nat k + 1)
        \/ ((forall msg, r <> Raise (AssertionError msg))
            /\ count s' = Z.of_nat k)).
Proof.
  intros H.
  destruct (main_cases rt cfg h s s' r H)
    as [(s1 & Hloop & -> & ->)|(e' & Hloop & ->)];
    destruct (loop_trace rt cfg h (reset rt s) _ _ Hloop)
      as (n & k & Hn & _ & Hc & _ & _ & _ & Lk & Hr);
    exists k; simpl in *; rewrite Hc, length_app, length_map, firstn_length_le by exact Lk;
    (split; [reflexivity|]);
    (destruct Hr as [[Ha ->]|[Ha ->]]; [left|right]; split; auto; lia).
Qed.

Lemma count_trails_commands_witness :
  exists k : nat,
    List.length (cmds (snd (main Plain.runtime (Plain.settings 95 95 50 50)
                              [Plain.row ["Q1"; "S1"; "96.0"; "98.0"; "10"; "20"; "1000"];
                               Plain.row ["Q2"; "S2"; "96.0"; "98.0"; "20"; "10"; "1000"]]
                              (Plain.initial []))))
    = (List.length (cmds (Plain.initial [])) + k)%nat
    /\ (((exists msg, Raise (AssertionError "Reverse strand?")
                      = Raise (A := unit) (AssertionError msg))
         /\ count (snd (main Plain.runtime (Plain.settings 95 95 50 50)
                          [Plain.row ["Q1"; "S1"; "96.0"; "98.0"; "10"; "20"; "1000"];
                           Plain.row ["Q2"; "S2"; "96.0"; "98.0"; "20"; "10"; "1000"]]
                          (Plain.initial [])))
            = Z.of_nat k + 1)
        \/ ((forall msg, Raise (AssertionError "Reverse strand?")
                         <> Raise (A := unit) (AssertionError msg))
            /\ count (snd (main Plain.runtime (Plain.settings 95 95 50 50)
                             [Plain.row ["Q1"; "S1"; "96.0"; "98.0"; "10"; "20"; "1000"];
                              Plain.row ["Q2"; "S2"; "96.0"; "98.0"; "20"; "10"; "1000"]]
                             (Plain.initial [])))
               = Z.of_nat k)).
Proof.
  apply (count_trails_commands Plain.runtime (Plain.settings 95 95 50 50)
           [Plain.row ["Q1"; "S1"; "96.0"; "98.0"; "10"; "20"; "1000"];
            Plain.row ["Q2"; "S2"; "96.0"; "98.0"; "20"; "10"; "1000"]]
           (Plain.initial [])).
  vm_compute. reflexivity.
Defined.

(** X11. A report in which every line is a comment or a record below a
    threshold, the empty report included, runs no command, prints
    nothing, and ends normally with [0 candidates] on standard error,
    whatever the count was before. *)
Theorem nothing_passes_zero_candidates (rt : Runtime) (cfg : Settings)
    (h : list string) (s : state (World rt)) :
  Forall (fun line => for_line rt cfg line = Continue) h ->
  main rt cfg h s
  = (Ok tt,
     {| count := 0;
        stdout := stdout s;
        stderr := stderr s ++ ["0 candidates" ++ PyStr.chr PyStr.lf];
        cmds := cmds s;
        world := world s |}).
Proof.
  intros Hall. unfold main, candidates_loop, bind.
  rewrite (extract_stop rt cfg h Hall). reflexivity.
Qed.

Lemma nothing_passes_zero_candidates_witness :
  main Plain.runtime (Plain.settings 95 95 50 50)
    ["# BLASTN 2.5.0+";
     Plain.row ["Q2"; "S2"; "94.9"; "98.0"; "10"; "20"; "1000"]]
    (Plain.after 1 Plain.three_rows)
  = (Ok tt,
     {| count := 0;
        stdout := stdout (Plain.after 1 Plain.three_rows);
        stderr := stderr (Plain.after 1 Plain.three_rows)
                    ++ ["0 candidates" ++ PyStr.chr PyStr.lf];
        cmds := cmds (Plain.after 1 Plain.three_rows);
        world := world (Plain.after 1 Plain.three_rows) |}).
Proof.
  apply (nothing_passes_zero_candidates Plain.runtime (Plain.settings 95 95 50 50)).
  repeat constructor.
Defined.

(** ** Windows and the bounds of the subject *)

Section WindowFacts.

Context (rt : Runtime) (cfg : Settings).

Local Abbreviation St := (state (World rt)).

Lemma candidates_of_in (h : list string) (c : candidate) :
  In c (candidates_of rt cfg h) ->
  exists line, In line h /\ for_line rt cfg line = YieldV c.
Proof.
  unfold candidates_of. rewrite in_flat_map.
  intros [line [Hin Hc]]. exists line. split; [exact Hin|].
  destruct (for_line rt cfg line) as [|c'|e]; simpl in Hc;
    try contradiction.
  destruct Hc as [->|[]]. reflexivity.
Qed.

Lemma firstn_In {A : Type} (k : nat) (l : list A) (x : A) :
  In x (firstn k l) -> In x l.
Proof.
  revert l. induction k as [|k IH]; intros [|a l]; simpl; try contradiction.
  intros [->|H]; [left; reflexivity|right; apply IH, H].
Qed.

Lemma main_windows_within (h : list string) (s s' : St) (r : result unit) :
  0 <= up_extend cfg ->
  0 <= down_extend cfg ->
  main rt cfg h s = (r, s') ->
  exists cs : list candidate,
    cmds s' = (cmds s ++ map (fun c => command_of cfg (window cfg c)) cs)%list
    /\ Forall (sound_window rt cfg h) cs.
Proof.
  intros Hu Hd H.
  assert (Hloop : exists r1 s1,
             for_each rt cfg (extract_candidates rt cfg h) (reset rt s) = (r1, s1)
             /\ cmds s' = cmds s1).
  { destruct (main_cases rt cfg h s s' r H)
      as [(s1 & Hl & _ & ->)|(e' & Hl & _)]; eauto. }
  destruct Hloop as (r1 & s1 & Hl & Hcm).
  destruct (loop_trace rt cfg h (reset rt s) s1 r1 Hl)
    as (n & k & _ & _ & Hc & Hok & _).
  exists (firstn k (candidates_of rt cfg h)). split.
  - rewrite Hcm, Hc. reflexivity.
  - rewrite Forall_forall in *. intros c Hin.
    pose proof (Hok c Hin) as Hcoords.
    apply firstn_In, candidates_of_in in Hin.
    destruct c as [[[idn start] end_] length]. simpl in *.
    apply coords_ok_spec in Hcoords.
    split; [exact Hin|]. unfold req_start, req_end. lia.
Qed.

End WindowFacts.

(** X12. With extensions that are not negative, every [blastdbcmd] command
    of a run, however the run ends, is for a record of the report that
    passed the filter with [1 <= start < end <= length], and asks for a
    range around the match and inside the subject:
    [1 <= req_start <= start] and [end <= req_end <= length]. *)
Theorem commands_stay_within_subject (rt : Runtime) (cfg : Settings)
    (h : list string) (s s' : state (World rt)) (r : result unit) :
  0 <= up_extend cfg ->
  0 <= down_extend cfg ->
  main rt cfg h s = (r, s') ->
  exists cs : list candidate,
    cmds s' = (cmds s ++ map (fun c => command_of cfg (window cfg c)) cs)%list
    /\ Forall (sound_window rt cfg h) cs.
Proof. apply main_windows_within. Qed.

Lemma commands_stay_within_subject_witness :
  exists cs : list candidate,
    cmds (Plain.after 1 Plain.three_rows)
    = (cmds (Plain.initial [])
         ++ map (fun c => command_of (Plain.settings 95 95 50 50)
                            (window (Plain.settings 95 95 50 50) c)) cs)%list
    /\ Forall (sound_window Plain.runtime (Plain.settings 95 95 50 50)
                 Plain.three_rows) cs.
Proof.
  apply (commands_stay_within_subject Plain.runtime (Plain.settings 95 95 50 50)
           Plain.three_rows (Plain.initial []) (Plain.after 1 Plain.three_rows)
           (Ok tt)).
  - simpl. lia.
  - simpl. lia.
  - vm_compute. reflexivity.
Defined.

(** ** The command line *)

Section StartFacts.

Context (rt : Runtime) (host : Host).

Lemma given_text (o : option string) :
  given o = true -> text_of o <> EmptyString.
Proof. destruct o as [[|a v]|]; simpl; intros H; discriminate. Qed.

Lemma check_extend_ok (which text : string) (z : Z) :
  check_extend rt host which text = Started z ->
  py_int rt text = Some z /\ 0 <= z.
Proof.
  unfold check_extend, sys_exit.
  destruct (py_int rt text) as [z'|]; [|discriminate].
  destruct (z' <? 0) eqn:E; [discriminate|].
  intros H. inversion H. subst. apply Z.ltb_ge in E. auto.
Qed.

Lemma check_threads_ok (o : Options) (threads0 z : Z) :
  check_threads rt host o threads0 = Started z ->
  1 <= z
  /\ match opt_threads o with
     | Some text => py_int rt text = Some z
     | None => z = threads0
     end.
Proof.
  unfold check_threads, sys_exit.
  destruct (opt_threads o) as [text|].
  - destruct (py_int rt text) as [z'|]; [|discriminate].
    destruct (z' <? 1) eqn:E; [discriminate|].
    intros H. inversion H. subst. apply Z.ltb_ge in E. auto.
  - destruct (threads0 <? 1) eqn:E; [discriminate|].
    intros H. inversion H. subst. apply Z.ltb_ge in E. auto.
Qed.

Lemma default_threads_ok (slots : option string) (z : Z) :
  default_threads rt slots = Started z -> 1 <= z.
Proof.
  unfold default_threads.
  destruct (1 <=? _) eqn:E; [|discriminate].
  intros H. inversion H. subst. apply Z.leb_le in E. exact E.
Qed.

Lemma start_well_started (slots : option string) (args : list string)
    (o : Options) (v : Checked) :
  start rt host slots args o = Started v ->
  well_started rt host slots args o v.
Proof.
  unfold start.
  destruct (default_threads rt slots) as [t0|e] eqn:Hslots; [|discriminate].
  unfold check_options, sys_exit.
  destruct args as [|a args]; [|discriminate].
  destruct (given (opt_query o)) eqn:Hq; [|discriminate].
  destruct (given (opt_database o)) eqn:Hd; [|discriminate].
  destruct (isfile host (text_of (opt_query o))) eqn:Hf; [|discriminate].
  destruct (given (opt_output o)) eqn:Ho; [|discriminate]. simpl.
  destruct (py_float rt (opt_min_identity o)) as [idy|] eqn:Hi; [|discriminate].
  destruct (percent_ok idy) eqn:Hip; [|discriminate]. simpl.
  destruct (py_float rt (opt_min_coverage o)) as [cov|] eqn:Hc; [|discriminate].
  destruct (percent_ok cov) eqn:Hcp; [|discriminate]. simpl.
  destruct (py_int rt (opt_max_target_seqs o)) as [targets|] eqn:Ht; [|discriminate].
  destruct (targets <? 0) eqn:Htn; [discriminate|].
  destruct (check_extend rt host "upstream" (opt_up o)) as [up|e] eqn:Hup;
    [|discriminate].
  destruct (check_extend rt host "downstream" (opt_down o)) as [down|e] eqn:Hdown;
    [|discriminate].
  destruct (check_threads rt host o t0) as [n|e] eqn:Hth; [|discriminate].
  intros H. inversion H. subst v. clear H.
  apply check_extend_ok in Hup as [Hup Hup0].
  apply check_extend_ok in Hdown as [Hdown Hdown0].
  apply check_threads_ok in Hth as [Hn Hth].
  apply Z.ltb_ge in Htn.
  unfold well_started. simpl.
  repeat match goal with |- _ /\ _ => split end;
    try reflexivity; try assumption; try (apply given_text; assumption).
  - unfold settings_ok, extend_ok. simpl. rewrite Hip, Hcp. simpl.
    apply Z.ltb_ge in Hup0, Hdown0. rewrite Hup0, Hdown0. reflexivity.
  - destruct (opt_threads o); [exact Hth|]. subst n. exact Hslots.
Qed.

End StartFacts.

(** X13. When the checks of lines 38-150 are passed, there was no
    positional argument; the query is a named, existing file, the output
    and the database are named; the thresholds are the numbers the
    options spell, and lie between 0 and 100 (so neither is a NaN); the
    extensions and the number of target sequences are the integers the
    options spell and are not negative; the number of threads is at least
    one, that of [--threads] when the option is given and otherwise that
    of [GALAXY_SLOTS]. *)
Theorem start_establishes_settings (rt : Runtime) (host : Host)
    (slots : option string) (args : list string) (o : Options) (v : Checked) :
  start rt host slots args o = Started v ->
  well_started rt host slots args o v
  /\ PyFloat.is_nan (min_identity (settings v)) = false
  /\ PyFloat.is_nan (min_coverage (settings v)) = false.
Proof.
  intros H. pose proof (start_well_started rt host slots args o v H) as W.
  split; [exact W|].
  apply settings_ok_thresholds. unfold well_started in W. tauto.
Qed.

Lemma start_establishes_settings_witness :
  well_started Plain.runtime PlainHost.host (Some "4") []
    (PlainHost.options "97.5" "90" "0" "200")
    {| query_file := "query.fasta"; out_file := "out.fasta";
       max_target_seqs := 1; threads := 4;
       settings := {| database := "db";
                      min_identity := PyFloat.of_ratio false 975 10;
                      min_coverage := PyFloat.of_int 90;
                      up_extend := 0; down_extend := 200 |} |}.
Proof.
  apply (proj1 (start_establishes_settings Plain.runtime PlainHost.host
                  (Some "4") [] (PlainHost.options "97.5" "90" "0" "200") _
                  ltac:(vm_compute; reflexivity))).
Defined.

(** X14. When the file checks are passed and an option that should be a
    number is not, the run does not end with the message written for the
    case.  The handlers for the identity, the coverage and the number of
    target sequences format the name that the failed conversion left
    unbound, so the run ends with [NameError] on [min_identity],
    [min_coverage] or [max_target_seqs], the first of them that applies. *)
Theorem unparsable_threshold_name_error (rt : Runtime) (host : Host)
    (slots : option string) (args : list string) (o : Options) (threads0 : Z) :
  default_threads rt slots = Started threads0 ->
  files_ok host args o = true ->
  (py_float rt (opt_min_identity o) = None ->
   start rt host slots args o = Failed (NameError "min_identity"))
  /\ (forall idy : spec_float,
         py_float rt (opt_min_identity o) = Some idy ->
         percent_ok idy = true ->
         py_float rt (opt_min_coverage o) = None ->
         start rt host slots args o = Failed (NameError "min_coverage"))
  /\ (forall idy cov : spec_float,
         py_float rt (opt_min_identity o) = Some idy ->
         percent_ok idy = true ->
         py_float rt (opt_min_coverage o) = Some cov ->
         percent_ok cov = true ->
         py_int rt (opt_max_target_seqs o) = None ->
         start rt host slots args o = Failed (NameError "max_target_seqs")).
Proof.
  intros Hslots Hfiles. unfold start. rewrite Hslots.
  unfold files_ok in Hfiles. destruct args as [|a args]; [|discriminate].
  apply andb_prop in Hfiles as [H Ho]. apply andb_prop in H as [H Hf].
  apply andb_prop in H as [Hq Hd].
  unfold check_options. rewrite Hq, Hd, Hf, Ho. simpl.
  split; [|split].
  - intros Hi. rewrite Hi. reflexivity.
  - intros idy Hi Hip Hc. rewrite Hi, Hip. simpl. rewrite Hc. reflexivity.
  - intros idy cov Hi Hip Hc Hcp Ht.
    rewrite Hi, Hip. simpl. rewrite Hc, Hcp. simpl. rewrite Ht. reflexivity.
Qed.

(** [--identity 9O] with a letter O. *)
Lemma unparsable_threshold_name_error_witness :
  start Plain.runtime PlainHost.host None []
    (PlainHost.options "9O" "95" "50" "50")
  = Failed (NameError "min_identity").
Proof.
  apply (proj1 (unparsable_threshold_name_error Plain.runtime PlainHost.host
                  None [] (PlainHost.options "9O" "95" "50" "50") 1
                  ltac:(vm_compute; reflexivity) ltac:(vm_compute; reflexivity))).
  vm_compute. reflexivity.
Defined.

(** X15. Past the [--version] exit, [GALAXY_SLOTS] is looked at before the
    command line.  A value that is an integer below one ends the run with
    [AssertionError], whatever the options and even when [--threads] is
    given; a value that is not an integer counts as one. *)
Theorem galaxy_slots_checked_first (rt : Runtime) (host : Host) (text : string) :
  (forall z : Z,
      py_int rt text = Some z -> z < 1 ->
      forall (args : list string) (o : Options),
        start rt host (Some text) args o
        = Failed (Uncaught (AssertionError (PyStr.fmt_i z))))
  /\ (py_int rt text = None ->
      forall (args : list string) (o : Options),
        start rt host (Some text) args o = check_options rt host args o 1).
Proof.
  split.
  - intros z Hz Hlt args o. unfold start, default_threads. rewrite Hz.
    apply Z.leb_gt in Hlt. rewrite Hlt. reflexivity.
  - intros Hz args o. unfold start, default_threads. rewrite Hz. reflexivity.
Qed.

(** [GALAXY_SLOTS=0] with [--threads 8]. *)
Lemma galaxy_slots_checked_first_witness :
  start Plain.runtime PlainHost.host (Some "0") []
    {| opt_query := Some "query.fasta"; opt_database := Some "db";
       opt_output := Some "out.fasta"; opt_output_blast := None;
       opt_min_identity := "95"; opt_min_coverage := "95";
       opt_max_target_seqs := "1"; opt_up := "50"; opt_down := "50";
       opt_threads := Some "8" |}
  = Failed (Uncaught (AssertionError (PyStr.fmt_i 0))).
Proof.
  apply (proj1 (galaxy_slots_checked_first Plain.runtime PlainHost.host "0") 0).
  - vm_compute. reflexivity.
  - lia.
Defined.

(** X16. The checks of the command line are what the loop needs: under
    the settings of a start that succeeded, every [blastdbcmd] command of
    a run, however it ends, asks for a range around the match of a record
    of the report and inside its subject. *)
Theorem started_run_within_subject (rt : Runtime) (host : Host)
    (slots : option string) (args : list string) (o : Options) (v : Checked)
    (h : list string) (s s' : state (World rt)) (r : result unit) :
  start rt host slots args o = Started v ->
  main rt (settings v) h s = (r, s') ->
  exists cs : list candidate,
    cmds s' = (cmds s ++ map (fun c => command_of (settings v)
                                         (window (settings v) c)) cs)%list
    /\ Forall (sound_window rt (settings v) h) cs.
Proof.
  intros Hstart Hrun.
  pose proof (start_well_started rt host slots args o v Hstart) as W.
  assert (Hok : settings_ok (settings v) = true)
    by (unfold well_started in W; tauto).
  unfold settings_ok, extend_ok in Hok.
  apply andb_prop in Hok as [Hok Hd]. apply andb_prop in Hok as [_ Hu].
  apply negb_true_iff, Z.ltb_ge in Hu, Hd.
  exact (main_windows_within rt (settings v) h s s' r Hu Hd Hrun).
Qed.

Lemma started_run_within_subject_witness :
  exists cs : list candidate,
    cmds (Plain.after 1 Plain.two_hits)
    = (cmds (Plain.initial [])
         ++ map (fun c => command_of (Plain.settings 95 95 50 50)
                            (window (Plain.settings 95 95 50 50) c)) cs)%list
    /\ Forall (sound_window Plain.runtime (Plain.settings 95 95 50 50)
                 Plain.two_hits) cs.
Proof.
  apply (started_run_within_subject Plain.runtime PlainHost.host None []
           (PlainHost.options "95" "95" "50" "50")
           {| query_file := "query.fasta"; out_file := "out.fasta";
              max_target_seqs := 1; threads := 1;
              settings := Plain.settings 95 95 50 50 |}
           Plain.two_hits (Plain.initial []) (Plain.after 1 Plain.two_hits)
           (Ok tt)).
  - vm_compute. reflexivity.
  - vm_compute. reflexivity.
Defined.

(** ** Lowering a threshold *)

Lemma ltb_leb_trans (x y z : spec_float) :
  PyFloat.ltb x y = true -> PyFloat.leb y z = true -> PyFloat.ltb x z = true.
Proof.
  unfold PyFloat.ltb, PyFloat.leb, SFltb, SFleb.
  destruct x as [sx|sx| |sx mx ex], y as [sy|sy| |sy my ey],
    z as [sz|sz| |sz mz ez]; simpl; try discriminate;
    try (destruct sx); try (destruct sy); try (destruct sz);
    simpl; try discriminate; try reflexivity;
    change (Pos.compare_cont Eq) with Pos.compare;
    destruct (Z.compare_spec ex ey); destruct (Z.compare_spec ey ez);
    destruct (Z.compare_spec ex ez); simpl;
    try discriminate; try reflexivity; try lia; subst;
    destruct (Pos.compare_spec mx my); destruct (Pos.compare_spec my mz);
    destruct (Pos.compare_spec mx mz); simpl;
    try discriminate; try reflexivity; lia.
Qed.

Lemma not_below_lower (x lo hi : spec_float) :
  PyFloat.leb lo hi = true ->
  PyFloat.ltb x hi = false ->
  PyFloat.ltb x lo = false.
Proof.
  intros Hle Hx. destruct (PyFloat.ltb x lo) eqn:E; [|reflexivity].
  rewrite (ltb_leb_trans x lo hi E Hle) in Hx. discriminate.
Qed.

(** X17. Lowering a threshold never loses a record: a line that yields a
    candidate under some thresholds yields the same candidate under any
    thresholds that are not higher. *)
Theorem lower_thresholds_keep_records (rt : Runtime) (cfg cfg' : Settings)
    (line : string) (c : candidate) :
  PyFloat.leb (min_identity cfg') (min_identity cfg) = true ->
  PyFloat.leb (min_coverage cfg') (min_coverage cfg) = true ->
  for_line rt cfg line = YieldV c ->
  for_line rt cfg' line = YieldV c.
Proof.
  intros Hi Hc. unfold for_line.
  destruct (PyStr.startswith "#" line); [discriminate|].
  destruct (negb _); [discriminate|].
  destruct (py_float rt _) as [idy|]; [|discriminate].
  destruct (PyFloat.ltb idy (min_identity cfg)) eqn:Ei; [discriminate|].
  rewrite (not_below_lower idy _ _ Hi Ei).
  destruct (py_float rt _) as [cov|]; [|discriminate].
  destruct (PyFloat.ltb cov (min_coverage cfg)) eqn:Ec; [discriminate|].
  rewrite (not_below_lower cov _ _ Hc Ec).
  intros H. exact H.
Qed.

Lemma lower_thresholds_keep_records_witness :
  for_line Plain.runtime (Plain.settings 90 0 50 50)
    (Plain.row ["Q1"; "S1"; "96.0"; "98.0"; "10"; "20"; "1000"])
  = YieldV ("S1", 10, 20, 1000).
Proof.
  apply (lower_thresholds_keep_records Plain.runtime (Plain.settings 95 95 50 50)).
  - vm_compute. reflexivity.
  - vm_compute. reflexivity.
  - vm_compute. reflexivity.
Defined.
